(** * Push-button monitor (pb_monitor.c): model and verification

    The monitor reads the key events of one push button, measures the
    time between press and release, and turns it into a reboot, a
    factory-reset request, a shutdown or a cancelled press, with LED
    feedback while the button is held.

    The C program is embedded as follows.
    - The two file-scope variables that the program mutates ([state]
      and the command buffer [str_sys_call_check_factory_reset]) are
      fields of the record [pb]; the marker file is one boolean field.
    - Everything the program does to the outside world ([printf],
      [perror], [system], [fopen], [remove], [timer_settime]) is
      appended, in program order, to the field [out].
    - What the outside world gives to the program (the result of
      [stat], of [read], of each [clock_gettime], and the delivery of
      the timer signal) is an argument of the function that consumes it.
    - [time_t], [long] and [unsigned long] are 64 bits wide (LP64).
      Differences of [long] values are taken in [Z]: they are those of
      the program as long as the seconds of the two readings differ by
      less than 2^63.  The one mixed signed/unsigned expression of the
      source is written out with its wrap-around.
    - The [double] returned by [test_time] is represented by its exact
      value in nanoseconds; the cast to [unsigned long] truncates
      towards zero and is undefined outside the range of the type.
      Module [Binary64] evaluates the same expression with the
      rounding of IEEE 754 for comparison.
    - The field [str_sys_call_check_factory_reset] holds the C string
      that starts at the address of that array.  The array has 39
      bytes, all used by its initial content, so every [strcat] runs
      over into [str_sys_call_reboot], the array declared next:
      [segment] lays the two arrays out one after the other and
      [str_sys_call_reboot] reads the second one back from it.  The
      executions followed here append at most two flags, and seven fit
      before the end of [str_sys_call_reboot]; the arrays behind it
      keep their initial content.
    - The signal handler runs between two passes of the main loop in
      [step]; [interrupted] lets it run between two statements of the
      one branch of [process_end_time] that shares the buffer with
      it. *)

From Stdlib Require Import ZArith List String Ascii Bool Lia SpecFloat.
Import ListNotations.

Local Open Scope string_scope.
Local Open Scope list_scope.
Local Open Scope Z_scope.

(** ** Constants and enumerations *)

Definition TIMER1_EXPIRE : Z := 10.
Definition TIMER1_INTERVAL : Z := 2.
Definition FACTORY_RESET_FILE : string := "/opt/monitors/fc-set".

Definition ENOENT : Z := 2.
Definition EV_KEY : Z := 1.

Inductive led_state : Set :=
| LED_OFF
| LED_GREEN
| LED_RED
| LED_FLASH_GREEN
| LED_FLASH_RED.

Inductive pb_state : Set :=
| PB_STATE_START
| PB_STATE_INUSE.

(** The line feed that ends every message of the program. *)
Definition nl : string := String (ascii_of_nat 10) EmptyString.

(** ** Command lines *)

Definition str_sys_call_i2c_reset : string := "i2cset -f -y 0 0x20 0 0".
Definition str_sys_call_opt_dir : string := "mkdir -p /opt/monitors/".
Definition str_sys_call_shutdown : string := "shutdown -h now".

(** Initial content of the mutable buffer
    [str_sys_call_check_factory_reset]. *)
Definition check_factory_reset_cmd : string :=
  "/usr/local/bin/check-factory-reset.sh ".

Definition str_sys_call_led (l : led_state) : string :=
  match l with
  | LED_OFF => "./set_led.sh 0"
  | LED_GREEN => "./set_led.sh 1"
  | LED_RED => "./set_led.sh 2"
  | LED_FLASH_GREEN => "./set_led.sh 3"
  | LED_FLASH_RED => "./set_led.sh 4"
  end.

(** ** Observable effects and program state *)

Inductive effect : Set :=
| Printf (fmt : string) (args : list Z)
| Perror (msg : string)
| System (cmd : string)
| Fopen_w (path : string)
| Remove (path : string)
| Timer_settime (expireS intervalS : Z).

Record pb : Set := mk_pb {
  state : pb_state;
  str_sys_call_check_factory_reset : string;
  fc_set : bool;
  out : list effect
}.

Definition cmd : Set := pb -> pb.

Definition seq (c1 c2 : cmd) : cmd := fun g => c2 (c1 g).
Notation "c1 ;; c2" := (seq c1 c2) (at level 61, right associativity).

Definition emit (e : effect) : cmd := fun g =>
  mk_pb (state g) (str_sys_call_check_factory_reset g) (fc_set g) (out g ++ [e]).

Definition printf (fmt : string) (args : list Z) : cmd := emit (Printf fmt args).
Definition perror (msg : string) : cmd := emit (Perror msg).
Definition system (c : string) : cmd := emit (System c).

Definition set_state (st : pb_state) : cmd := fun g =>
  mk_pb st (str_sys_call_check_factory_reset g) (fc_set g) (out g).

Definition set_fc_set (b : bool) : cmd := fun g =>
  mk_pb (state g) (str_sys_call_check_factory_reset g) b (out g).

(** [strcat (str_sys_call_check_factory_reset, flag)]. *)
Definition strcat_check_factory_reset (flag : string) : cmd := fun g =>
  mk_pb (state g) (str_sys_call_check_factory_reset g ++ flag)%string
        (fc_set g) (out g).

(** [system (str_sys_call_check_factory_reset)]: the command line is the
    content of the buffer at the time of the call. *)
Definition system_check_factory_reset : cmd := fun g =>
  system (str_sys_call_check_factory_reset g) g.

(** *** The array behind the command buffer

    [char str_sys_call_check_factory_reset[]] is initialised with 38
    characters and has 39 bytes; [char str_sys_call_reboot[] = "reboot"]
    (7 bytes) is declared directly after it.  [initial_segment] is the
    content of these 46 bytes when the program starts. *)
Definition NUL : ascii := ascii_of_nat 0.

Definition initial_segment : string :=
  (check_factory_reset_cmd ++ String NUL ("reboot" ++ String NUL ""))%string.

Fixpoint skip (n : nat) (s : string) : string :=
  match n, s with
  | O, _ => s
  | S n', String _ s' => skip n' s'
  | S _, EmptyString => EmptyString
  end.

(** The C string that starts at the first byte of [s]. *)
Fixpoint c_string (s : string) : string :=
  match s with
  | EmptyString => EmptyString
  | String c s' => if Ascii.eqb c NUL then EmptyString else String c (c_string s')
  end.

(** The bytes of the two arrays in state [g]: what [strcat] has written
    from the start of the buffer, its terminating NUL, and behind it
    what is left of the initial content. *)
Definition segment (g : pb) : string :=
  (str_sys_call_check_factory_reset g ++
   String NUL
     (skip (S (String.length (str_sys_call_check_factory_reset g)))
        initial_segment))%string.

(** The string that the array [str_sys_call_reboot] holds in state [g]:
    it starts at byte 39 of the segment. *)
Definition str_sys_call_reboot (g : pb) : string :=
  c_string (skip 39 (segment g)).

(** [fopen (FACTORY_RESET_FILE, "w")] followed by [fclose]; the file is
    taken to be created. *)
Definition create_marker : cmd :=
  emit (Fopen_w FACTORY_RESET_FILE) ;; set_fc_set true.

(** [remove (FACTORY_RESET_FILE)]. *)
Definition remove_marker : cmd :=
  emit (Remove FACTORY_RESET_FILE) ;; set_fc_set false.

(** ** The functions of pb_monitor.c *)

Definition pb_initialise : cmd :=
  system str_sys_call_i2c_reset ;; system str_sys_call_opt_dir.

Definition timer_handler (sig : Z) : cmd := fun g =>
  match state g with
  | PB_STATE_START =>
      (printf ("Signal %d - Changes pb mode to in-use" ++ nl) [sig] ;;
       set_state PB_STATE_INUSE ;;
       system (str_sys_call_led LED_FLASH_GREEN) ;;
       strcat_check_factory_reset "0" ;;
       system_check_factory_reset) g
  | PB_STATE_INUSE => g
  end.

(** What the operating system answers to the calls of [make_timer]. *)
Inductive timer_env : Set :=
| Timer_ok
| Sigaction_fails
| Timer_create_fails
| Settime_fails (errno : Z).

(** [make_timer]; the message of a failed [timer_settime] prints [errno]
    twice, as a number and as the text of [strerror]. *)
Definition make_timer (env : timer_env) (name : string)
    (expireS intervalS : Z) (g : pb) : Z * pb :=
  match env with
  | Sigaction_fails =>
      (-1, (perror "sigaction" ;;
            printf ("Failed to setup signal handler" ++ nl) []) g)
  | Timer_create_fails =>
      (-1, (perror "timer_create" ;;
            printf ("Failed to create timer" ++ nl) []) g)
  | Settime_fails errno =>
      (0, (perror "timer_start" ;;
           printf ("timer_settime failed:%d -(%s)" ++ nl) [errno; errno]) g)
  | Timer_ok => (0, emit (Timer_settime expireS intervalS) g)
  end.

(** *** Time measurement *)

Record timespec : Set := mk_timespec { tv_sec : Z; tv_nsec : Z }.

Definition ULONG_MAX : Z := 2 ^ 64 - 1.

Definition wrap_ulong (z : Z) : Z := z mod 2 ^ 64.

Definition long_of_ulong (z : Z) : Z :=
  if z <? 2 ^ 63 then z else z - 2 ^ 64.

Definition timespec_diff (start stop : timespec) : timespec :=
  if tv_nsec stop - tv_nsec start <? 0 then
    mk_timespec
      (tv_sec stop - tv_sec start - 1)
      (long_of_ulong
         (wrap_ulong (wrap_ulong (tv_nsec stop - tv_nsec start) + 1000000000)))
  else
    mk_timespec (tv_sec stop - tv_sec start) (tv_nsec stop - tv_nsec start).

(** A [double], as its exact value counted in nanoseconds. *)
Definition double : Set := Z.

(** [(double) d->tv_sec + ((double) d->tv_nsec / 1000000000)]. *)
Definition double_of_timespec (d : timespec) : double :=
  tv_sec d * 1000000000 + tv_nsec d.

(** [(unsigned long) t]: the fractional part is discarded; the
    conversion is undefined when the integral part is not a value of
    the type. *)
Definition ulong_of_double (t : double) : option Z :=
  let q := Z.quot t 1000000000 in
  if (0 <=? q) && (q <=? ULONG_MAX) then Some q else None.

(** The test of [test_time] on the start time. *)
Definition start_is_set (start : timespec) : bool :=
  (tv_sec start >? 0) || (tv_nsec start >? 0).

(** [clock]: what [clock_gettime] answers, [None] when it returns -1. *)
Definition clock : Set := option timespec.

(** [test_time]; the output parameters [stop] and [duration] are read
    nowhere else and are left out. *)
Definition test_time (start : timespec) (clk : clock) (g : pb) : double * pb :=
  if start_is_set start then
    match clk with
    | None => (0, perror "clock gettime" g)
    | Some stop => (double_of_timespec (timespec_diff start stop), g)
    end
  else (0, g).

(** *** LED feedback while the button is held *)

Definition process_time (seconds : Z) : cmd := fun g =>
  match state g with
  | PB_STATE_INUSE =>
      if seconds >=? 15 then system (str_sys_call_led LED_FLASH_GREEN) g
      else if seconds >=? 10 then system (str_sys_call_led LED_FLASH_RED) g
      else if seconds >=? 5 then system (str_sys_call_led LED_RED) g
      else g
  | PB_STATE_START => g
  end.

(** *** Action on release *)

Definition MSG_CANCEL : string :=
  "Long Push-Button Press (15+sec) - cancelled" ++ nl.
Definition MSG_SHUTDOWN : string :=
  "Long Push-Button Press (10+sec) - shutdown" ++ nl.
Definition MSG_FC_SET : string :=
  "Long Push-Button Press (5+sec) - Enter factory reset on next reboot" ++ nl.
Definition MSG_REBOOT : string :=
  "Short Push-ButtonPress (less 5sec ) - reboot" ++ nl.
Definition MSG_FACTORY_RESET : string := "Factory Reset" ++ nl.

Definition process_end_time (seconds : Z) : cmd := fun g =>
  if seconds >=? 15 then
    printf MSG_CANCEL [] g
  else if seconds >=? 10 then
    (printf MSG_SHUTDOWN [] ;; system str_sys_call_shutdown) g
  else if seconds >=? 5 then
    (printf MSG_FC_SET [] ;; create_marker) g
  else
    match state g with
    | PB_STATE_INUSE =>
        (printf MSG_REBOOT [] ;; system (str_sys_call_reboot g)) g
    | PB_STATE_START =>
        (printf MSG_FACTORY_RESET [] ;;
         strcat_check_factory_reset "1" ;;
         system_check_factory_reset ;;
         set_state PB_STATE_INUSE ;;
         system (str_sys_call_led LED_FLASH_GREEN)) g
    end.

(** *** Start-up check of the marker file

    [stat_errno] is what [stat (FACTORY_RESET_FILE)] answers: [None]
    when it returns 0, [Some e] when it returns -1 with [errno = e].
    The result is the value stored through [time_start]. *)
Definition check_inuse_factory_reset (stat_errno : option Z) (g : pb) : Z * pb :=
  if match stat_errno with Some e => e =? ENOENT | None => false end then
    (TIMER1_EXPIRE, system (str_sys_call_led LED_RED) g)
  else
    (TIMER1_INTERVAL,
     (remove_marker ;;
      strcat_check_factory_reset "1" ;;
      system_check_factory_reset ;;
      set_state PB_STATE_INUSE ;;
      system (str_sys_call_led LED_FLASH_GREEN)) g).

(** ** The main function *)

Record input_event : Set := mk_input_event {
  ev_type : Z;
  ev_code : Z;
  ev_value : Z
}.

(** The variables of [main] that live across passes of the loop: the
    globals and the start time of the press. *)
Record monitor : Set := mk_monitor {
  glob : pb;
  timer_start : timespec
}.

Definition timespec_zero : timespec := mk_timespec 0 0.

(** The statements of [main] between the test of [device] and the loop.
    [fs] tells whether the marker file exists when the program starts. *)
Definition main_init (fs : bool) (stat_errno : option Z) (env : timer_env)
    : monitor :=
  let g0 := mk_pb PB_STATE_START check_factory_reset_cmd fs [] in
  let g1 := (pb_initialise ;;
             printf ("Start Push-Button Monitor" ++ nl) [] ;;
             printf ("Start-Mode, press push-button for factory Reset" ++ nl) [])
              g0 in
  let '(time_start, g2) := check_inuse_factory_reset stat_errno g1 in
  let '(_, g3) := make_timer env "Timer1" time_start TIMER1_INTERVAL g2 in
  mk_monitor g3 timespec_zero.

(** How the body of the [for] loop is left. *)
Inductive flow : Set :=
| Next
| Break.

(** The body of the [for] loop on one input event. [clk] is the answer
    of the [clock_gettime] that the body calls, if it calls one. The
    result is [None] when the conversion of the duration to
    [unsigned long] is undefined. *)
Definition handle_event (ev : input_event) (clk : clock) (m : monitor)
    : option (flow * monitor) :=
  if negb (ev_type ev =? EV_KEY) then Some (Next, m)
  else if ev_code ev =? 256 then
    if ev_value ev =? 1 then
      match clk with
      | None => Some (Break, mk_monitor (perror "clock gettime" (glob m))
                                        (timer_start m))
      | Some now => Some (Next, mk_monitor (glob m) now)
      end
    else if ev_value ev =? 0 then
      let '(total_time, g1) := test_time (timer_start m) clk (glob m) in
      if negb (total_time =? 0) then
        match ulong_of_double total_time with
        | None => None
        | Some seconds =>
            Some (Next,
                  mk_monitor
                    (system (str_sys_call_led LED_FLASH_GREEN)
                       (process_end_time seconds g1))
                    timespec_zero)
        end
      else
        Some (Next, mk_monitor (printf ("Invalid Time" ++ nl) [] g1)
                               (timer_start m))
    else Some (Next, m)
  else Some (Next, m).

Fixpoint for_events (evs : list (input_event * clock)) (m : monitor)
    : option monitor :=
  match evs with
  | [] => Some m
  | (ev, clk) :: rest =>
      match handle_event ev clk m with
      | None => None
      | Some (Break, m1) => Some m1
      | Some (Next, m1) => for_events rest m1
      end
  end.

(** What [read] answers: fewer bytes than one event, with [errno] equal
    to [EINTR] or not, or a batch of events, each paired with the clock
    reading its handling obtains. *)
Inductive read_result : Set :=
| Read_short (eintr : bool)
| Read_events (evs : list (input_event * clock)).

(** The last statements of the loop body: the time so far drives the LED. *)
Definition sample (clk : clock) (m : monitor) : option monitor :=
  let '(total_time, g1) := test_time (timer_start m) clk (glob m) in
  if negb (total_time =? 0) then
    match ulong_of_double total_time with
    | None => None
    | Some seconds => Some (mk_monitor (process_time seconds g1) (timer_start m))
    end
  else Some (mk_monitor g1 (timer_start m)).

(** One pass of the [while] loop. *)
Definition loop_body (rd : read_result) (clk : clock) (m : monitor)
    : option monitor :=
  match
    match rd with
    | Read_short eintr =>
        Some (if eintr then m
              else mk_monitor (perror "read error" (glob m)) (timer_start m))
    | Read_events evs => for_events evs m
    end
  with
  | None => None
  | Some m1 => sample clk m1
  end.

(** What happens to the running monitor: the timer signal is delivered,
    or the loop makes one pass. *)
Inductive event : Set :=
| Timer_signal (sig : Z)
| Loop_pass (rd : read_result) (clk : clock).

Definition step (e : event) (m : monitor) : option monitor :=
  match e with
  | Timer_signal sig =>
      Some (mk_monitor (timer_handler sig (glob m)) (timer_start m))
  | Loop_pass rd clk => loop_body rd clk m
  end.

Fixpoint run (es : list event) (m : monitor) : option monitor :=
  match es with
  | [] => Some m
  | e :: rest =>
      match step e m with
      | None => None
      | Some m1 => run rest m1
      end
  end.

(** Shorthands for the two edges of the button. *)
Definition PRESS : input_event := mk_input_event EV_KEY 256 1.
Definition RELEASE : input_event := mk_input_event EV_KEY 256 0.

(** ** Reading the observable behaviour *)

(** The press actions of the monitor. *)
Inductive action : Set :=
| Cancel
| Shutdown
| Schedule_reset
| Reboot
| Factory_reset.

(** [performs a g g']: going from [g] to [g'] is the press action [a],
    described by what it writes, which commands it runs and what it
    does to the mode, the marker file and the command buffer. The
    action [Reboot] is the branch that calls [system] on
    [str_sys_call_reboot]; its command line is what that array holds. *)
Definition performs (a : action) (g g' : pb) : Prop :=
  match a with
  | Cancel =>
      out g' = out g ++ [Printf MSG_CANCEL []] /\
      state g' = state g /\ fc_set g' = fc_set g /\
      str_sys_call_check_factory_reset g' = str_sys_call_check_factory_reset g
  | Shutdown =>
      out g' = out g ++ [Printf MSG_SHUTDOWN []; System str_sys_call_shutdown] /\
      state g' = state g /\ fc_set g' = fc_set g /\
      str_sys_call_check_factory_reset g' = str_sys_call_check_factory_reset g
  | Schedule_reset =>
      out g' = out g ++ [Printf MSG_FC_SET []; Fopen_w FACTORY_RESET_FILE] /\
      state g' = state g /\ fc_set g' = true /\
      str_sys_call_check_factory_reset g' = str_sys_call_check_factory_reset g
  | Reboot =>
      out g' = out g ++ [Printf MSG_REBOOT []; System (str_sys_call_reboot g)] /\
      state g' = state g /\ fc_set g' = fc_set g /\
      str_sys_call_check_factory_reset g' = str_sys_call_check_factory_reset g
  | Factory_reset =>
      out g' = out g ++
        [Printf MSG_FACTORY_RESET [];
         System (str_sys_call_check_factory_reset g ++ "1")%string;
         System (str_sys_call_led LED_FLASH_GREEN)] /\
      state g' = PB_STATE_INUSE /\ fc_set g' = fc_set g /\
      str_sys_call_check_factory_reset g' =
        (str_sys_call_check_factory_reset g ++ "1")%string
  end.

(** The LED commands among the effects, oldest first. *)
Definition led_of_cmd (c : string) : option led_state :=
  if String.eqb c (str_sys_call_led LED_OFF) then Some LED_OFF
  else if String.eqb c (str_sys_call_led LED_GREEN) then Some LED_GREEN
  else if String.eqb c (str_sys_call_led LED_RED) then Some LED_RED
  else if String.eqb c (str_sys_call_led LED_FLASH_GREEN) then Some LED_FLASH_GREEN
  else if String.eqb c (str_sys_call_led LED_FLASH_RED) then Some LED_FLASH_RED
  else None.

Fixpoint led_commands (es : list effect) : list led_state :=
  match es with
  | [] => []
  | System c :: rest =>
      match led_of_cmd c with
      | Some l => l :: led_commands rest
      | None => led_commands rest
      end
  | _ :: rest => led_commands rest
  end.

(** The LED state after the effects [es]: the last LED command, if any. *)
Definition led_after (es : list effect) : option led_state :=
  last (map Some (led_commands es)) None.

(** The command lines run through [system], oldest first. *)
Fixpoint commands (es : list effect) : list string :=
  match es with
  | [] => []
  | System c :: rest => c :: commands rest
  | _ :: rest => commands rest
  end.

(** The runs of the factory-reset script among the effects: the command
    lines that start with the path of the script. *)
Definition factory_reset_calls (es : list effect) : list string :=
  filter (String.prefix check_factory_reset_cmd) (commands es).

(** Elapsed time between two clock readings, in nanoseconds. *)
Definition nanoseconds (t : timespec) : Z := tv_sec t * 1000000000 + tv_nsec t.

Definition elapsed (start stop : timespec) : Z :=
  nanoseconds stop - nanoseconds start.

(** A value that [clock_gettime] stores: seconds in the range of [long]
    and nanoseconds below one second. *)
Definition clock_reading (t : timespec) : Prop :=
  - 2 ^ 63 <= tv_sec t < 2 ^ 63 /\ 0 <= tv_nsec t < 1000000000.

(** The effects that [g'] has and [g] has not yet. *)
Definition new_effects (g g' : pb) : list effect :=
  skipn (List.length (out g)) (out g').

(** The three shell-outs that act on the host: reboot, shutdown and the
    factory-reset script, whatever its argument. *)
Definition is_system_action (c : string) : bool :=
  String.eqb c "reboot"
  || String.eqb c "shutdown -h now"
  || String.prefix "/usr/local/bin/check-factory-reset.sh " c.

Definition system_actions (es : list effect) : list string :=
  filter is_system_action (commands es).

(** The operation [factoryReset] of the specification, read on the
    command line of the script: its one argument is the flag. *)
Definition factoryReset (requestedByUser : bool) : string :=
  (check_factory_reset_cmd ++ (if requestedByUser then "1" else "0"))%string.

(** The band table of the LED policy in the words of the
    specification: the LED state requested while the button is held,
    [None] where the table leaves the LED as it is. *)
Definition led_policy_spec (mode : pb_state) (seconds : Z) : option led_state :=
  if seconds >=? 15 then Some LED_FLASH_GREEN
  else if seconds >=? 10 then Some LED_FLASH_RED
  else if seconds >=? 5 then Some LED_RED
  else match mode with
       | PB_STATE_INUSE => Some LED_GREEN
       | PB_STATE_START => None
       end.

(** The release of the button carried out the press action [a]: the
    action, then the LED command of [main], and the start time cleared. *)
Definition release_dispatches (a : action) (m m' : monitor) : Prop :=
  exists g1,
    performs a (glob m) g1 /\
    glob m' = system (str_sys_call_led LED_FLASH_GREEN) g1 /\
    timer_start m' = timespec_zero.

(** The one-character flag that a call site appends to the command. *)
Definition flag_string (flag : bool) : string := if flag then "1" else "0".

(** The two statements with which each of the three call sites runs the
    factory-reset script. *)
Definition call_check_factory_reset (flag : bool) : cmd :=
  strcat_check_factory_reset (flag_string flag) ;;
  system_check_factory_reset.

Fixpoint flags_string (flags : list bool) : string :=
  match flags with
  | [] => ""
  | f :: rest => (flag_string f ++ flags_string rest)%string
  end.

(** [flags_appended g]: the command buffer of [g] is its initial
    content followed by flags, at least one of them once the mode is
    INUSE. *)
Definition flags_appended (g : pb) : Prop :=
  exists flags : list bool,
    str_sys_call_check_factory_reset g =
      (check_factory_reset_cmd ++ flags_string flags)%string /\
    (state g = PB_STATE_INUSE -> flags <> []).

(** *** The timer signal inside a short press of mode START

    [make_timer] installs the handler with an empty signal mask and
    [main] never blocks the signal, so the handler can run between any
    two statements of [process_end_time]. [process_end_time_start] are
    the statements of the branch that a press of less than 5 s takes in
    mode START, in the order of the source; [interrupted p sig cs] runs
    the first [p] statements of [cs], then the handler, then the other
    statements. *)
Definition process_end_time_start : list cmd :=
  [printf MSG_FACTORY_RESET [];
   strcat_check_factory_reset "1";
   system_check_factory_reset;
   set_state PB_STATE_INUSE;
   system (str_sys_call_led LED_FLASH_GREEN)].

Definition statements (cs : list cmd) : cmd := fun g =>
  fold_left (fun h c => c h) cs g.

Definition interrupted (p : nat) (sig : Z) (cs : list cmd) : cmd :=
  statements (firstn p cs) ;; timer_handler sig ;; statements (skipn p cs).

(** The key events of the push button. *)
Definition button_edge (ev : input_event) : bool :=
  (ev_type ev =? EV_KEY) && (ev_code ev =? 256).

(** Events in which the button takes no part: the timer signal, and
    passes of the loop that read no key event of the button. *)
Definition no_button (e : event) : bool :=
  match e with
  | Timer_signal _ => true
  | Loop_pass (Read_short _) _ => true
  | Loop_pass (Read_events evs) _ =>
      forallb (fun p => negb (button_edge (fst p))) evs
  end.

(** The states of the monitor that an execution can be in. *)
Inductive reachable : monitor -> Prop :=
| reachable_init (fs : bool) (stat_errno : option Z) (env : timer_env) :
    reachable (main_init fs stat_errno env)
| reachable_step (m m' : monitor) (e : event) :
    reachable m -> step e m = Some m' -> reachable m'.

(** [evolves g g']: what every piece of the program does to the
    globals. The mode INUSE is kept; as long as the mode is START the
    command buffer is untouched; the buffer and the effects only grow. *)
Definition evolves (g g' : pb) : Prop :=
  (state g = PB_STATE_INUSE -> state g' = PB_STATE_INUSE) /\
  (state g' = PB_STATE_START ->
   str_sys_call_check_factory_reset g' = str_sys_call_check_factory_reset g) /\
  (exists suffix,
      str_sys_call_check_factory_reset g' =
        (str_sys_call_check_factory_reset g ++ suffix)%string) /\
  (exists d, out g' = out g ++ d).

(** [no_reboot g g']: between [g] and [g'] the command "reboot" is not
    run. *)
Definition no_reboot (g g' : pb) : Prop :=
  exists d, out g' = out g ++ d /\ ~ In "reboot" (commands d).

(** ** Binary64 evaluation of [test_time]

    The value that [test_time] returns, computed with the rounding of
    IEEE 754 binary64, to compare with the exact value of the model.
    The two agree on the whole seconds of every duration below 2^24
    seconds; above, binary64 may round the sum up to the next second,
    which is beyond every threshold of the program. *)
Module Binary64.

Definition of_Z (z : Z) : spec_float := binary_normalize 53 1024 z 0 false.

(** [(double) d->tv_sec + ((double) d->tv_nsec / 1000000000)]. *)
Definition total_time (d : timespec) : spec_float :=
  SFadd 53 1024 (of_Z (tv_sec d))
    (SFdiv 53 1024 (of_Z (tv_nsec d)) (of_Z 1000000000)).

(** [(unsigned long) x]. *)
Definition to_ulong (x : spec_float) : option Z :=
  match x with
  | S754_zero _ => Some 0
  | S754_finite s m e =>
      let v := match e with
               | Zneg p => Z.pos m / 2 ^ Z.pos p
               | _ => Z.pos m * 2 ^ e
               end in
      if s then (if v =? 0 then Some 0 else None)
      else if v <=? ULONG_MAX then Some v else None
  | _ => None
  end.

Definition is_zero (x : spec_float) : bool :=
  match x with
  | S754_zero _ => true
  | _ => false
  end.

End Binary64.

(** ** Further observations on the functions of pb_monitor.c *)

(** The key events on which [main] acts: code 256 with value 1, a
    press, or value 0, a release. *)
Definition is_edge (ev : input_event) : bool :=
  (ev_type ev =? EV_KEY) && (ev_code ev =? 256)
  && ((ev_value ev =? 1) || (ev_value ev =? 0)).

Definition is_release (ev : input_event) : bool :=
  (ev_type ev =? EV_KEY) && (ev_code ev =? 256) && (ev_value ev =? 0).

(** What [read] returned holds no release edge. *)
Definition no_release (rd : read_result) : bool :=
  match rd with
  | Read_short _ => true
  | Read_events evs => forallb (fun p => negb (is_release (fst p))) evs
  end.

(** Effects that only report or signal: an error message, or an LED
    command. *)
Definition feedback_only (e : effect) : bool :=
  match e with
  | Perror _ => true
  | System c =>
      match led_of_cmd c with
      | Some _ => true
      | None => false
      end
  | _ => false
  end.

(** [undispatched g g']: between [g] and [g'] the mode, the command
    buffer and the marker file are untouched and only error messages
    and LED commands were issued. *)
Definition undispatched (g g' : pb) : Prop :=
  state g' = state g /\
  str_sys_call_check_factory_reset g' = str_sys_call_check_factory_reset g /\
  fc_set g' = fc_set g /\
  exists d, out g' = out g ++ d /\ forallb feedback_only d = true.

(** [keeps_marker g g']: between [g] and [g'] the marker file is not
    removed, and it changes only by being created. *)
Definition keeps_marker (g g' : pb) : Prop :=
  (fc_set g = true -> fc_set g' = true) /\
  exists d,
    out g' = out g ++ d /\
    (forall path, ~ In (Remove path) d) /\
    (fc_set g' <> fc_set g -> In (Fopen_w FACTORY_RESET_FILE) d).

(** [runs_script g g']: between [g] and [g'] the factory-reset script
    is run exactly when the mode goes from START to INUSE, once, on the
    buffer of [g] and one flag; in mode INUSE the buffer is untouched. *)
Definition runs_script (g g' : pb) : Prop :=
  evolves g g' /\
  exists d,
    out g' = out g ++ d /\
    (state g = PB_STATE_INUSE ->
     factory_reset_calls d = [] /\
     str_sys_call_check_factory_reset g' = str_sys_call_check_factory_reset g) /\
    (state g' = PB_STATE_START -> factory_reset_calls d = []) /\
    (state g = PB_STATE_START -> state g' = PB_STATE_INUSE ->
     exists flag,
       str_sys_call_check_factory_reset g' =
         (str_sys_call_check_factory_reset g ++ flag_string flag)%string /\
       factory_reset_calls d =
         factory_reset_calls
           [System (str_sys_call_check_factory_reset g
                    ++ flag_string flag)%string]).

(** [start_before lo m]: the start time of [m] is a value that
    [clock_gettime] stores (or the initial zero) and, when it is set,
    not later than [lo] nanoseconds. *)
Definition start_before (lo : Z) (m : monitor) : Prop :=
  clock_reading (timer_start m) /\
  (start_is_set (timer_start m) = true -> nanoseconds (timer_start m) <= lo).

(** The clock readings that an event hands to the monitor, in the order
    of the calls of [clock_gettime] that may consume them. *)
Definition event_clocks (e : event) : list clock :=
  match e with
  | Timer_signal _ => []
  | Loop_pass (Read_short _) clk => [clk]
  | Loop_pass (Read_events evs) clk => map snd evs ++ [clk]
  end.

(** [clocks_forward lo cs]: the readings of [cs] are values that
    [clock_gettime] stores and none is earlier than the one before it,
    nor than [lo] nanoseconds. *)
Fixpoint clocks_forward (lo : Z) (cs : list clock) : Prop :=
  match cs with
  | [] => True
  | None :: rest => clocks_forward lo rest
  | Some t :: rest =>
      clock_reading t /\ lo <= nanoseconds t /\
      clocks_forward (nanoseconds t) rest
  end.

(** The time of the last reading of [cs], [lo] when there is none. *)
Fixpoint last_reading (lo : Z) (cs : list clock) : Z :=
  match cs with
  | [] => lo
  | None :: rest => last_reading lo rest
  | Some t :: rest => last_reading (nanoseconds t) rest
  end.

(** The LED states that the monitor is found to command. *)
Definition led_in_use (l : led_state) : bool :=
  match l with
  | LED_RED | LED_FLASH_GREEN | LED_FLASH_RED => true
  | LED_OFF | LED_GREEN => false
  end.

(** [leds_in_use g g']: provided the command buffer of [g] starts with
    the path of the factory-reset script, so does the buffer of [g'],
    and the LED commands issued in between are RED, FLASH_GREEN or
    FLASH_RED. *)
Definition leds_in_use (g g' : pb) : Prop :=
  String.prefix check_factory_reset_cmd (str_sys_call_check_factory_reset g)
    = true ->
  String.prefix check_factory_reset_cmd (str_sys_call_check_factory_reset g')
    = true /\
  exists d, out g' = out g ++ d /\ forallb led_in_use (led_commands d) = true.

(** [undispatched_but_for_commands g g']: the mode, the command buffer
    and the marker file of [g'] are those of [g]. *)
Definition undispatched_but_for_commands (g g' : pb) : Prop :=
  state g' = state g /\
  str_sys_call_check_factory_reset g' = str_sys_call_check_factory_reset g /\
  fc_set g' = fc_set g.

(** * Properties *)

(** ** Basic facts *)

Lemma timespec_diff_nanoseconds (start stop : timespec) :
  clock_reading start -> clock_reading stop ->
  double_of_timespec (timespec_diff start stop) = elapsed start stop.
Proof.
  intros [_ Hs] [_ Ht].
  unfold timespec_diff, double_of_timespec, elapsed, nanoseconds.
  destruct (Z.ltb_spec (tv_nsec stop - tv_nsec start) 0) as [Hlt | Hge]; cbn.
  - assert (Hw : long_of_ulong
       (wrap_ulong (wrap_ulong (tv_nsec stop - tv_nsec start) + 1000000000))
       = tv_nsec stop - tv_nsec start + 1000000000).
    { unfold wrap_ulong, long_of_ulong.
      rewrite Z.add_mod_idemp_l by (cbv; discriminate).
      rewrite Z.mod_small by lia.
      destruct (Z.ltb_spec (tv_nsec stop - tv_nsec start + 1000000000) (2 ^ 63));
        lia. }
    rewrite Hw. lia.
  - lia.
Qed.

Lemma ulong_of_double_floor (t : double) :
  0 <= t -> t / 1000000000 <= ULONG_MAX ->
  ulong_of_double t = Some (t / 1000000000).
Proof.
  intros H0 Hmax. unfold ulong_of_double.
  rewrite Z.quot_div_nonneg by lia. cbv zeta.
  assert (0 <= t / 1000000000) by (apply Z.div_pos; lia).
  destruct (Z.leb_spec 0 (t / 1000000000)); [| lia].
  destruct (Z.leb_spec (t / 1000000000) ULONG_MAX); [reflexivity | lia].
Qed.

Lemma elapsed_seconds_bound (start stop : timespec) :
  clock_reading start -> clock_reading stop ->
  elapsed start stop / 1000000000 <= ULONG_MAX.
Proof.
  intros [Hs Hsn] [Ht Htn]. unfold elapsed, nanoseconds, ULONG_MAX.
  apply Z.lt_succ_r. apply Z.div_lt_upper_bound; [lia |].
  change (2 ^ 63) with 9223372036854775808 in *.
  change (Z.succ (2 ^ 64 - 1)) with 18446744073709551616. lia.
Qed.

Lemma new_effects_app (g g' : pb) (d : list effect) :
  out g' = out g ++ d -> new_effects g g' = d.
Proof.
  intros H. unfold new_effects. rewrite H.
  rewrite skipn_app, skipn_all, Nat.sub_diag. reflexivity.
Qed.

Lemma new_effects_mk_pb (g : pb) (st : pb_state) (buf : string) (fs : bool)
    (d : list effect) :
  new_effects g (mk_pb st buf fs (out g ++ d)) = d.
Proof. now apply new_effects_app. Qed.

(** ** The action on release *)

(** Runs a sequence of commands on the globals. *)
Ltac exec :=
  unfold create_marker, remove_marker, system_check_factory_reset;
  unfold seq, printf, perror, system;
  unfold strcat_check_factory_reset, set_state, set_fc_set, emit;
  cbn [state str_sys_call_check_factory_reset fc_set out];
  rewrite <- ?app_assoc; cbn [app].

Ltac band_cases seconds :=
  destruct (Z.geb_spec seconds 15);
  [| destruct (Z.geb_spec seconds 10);
     [| destruct (Z.geb_spec seconds 5)]].

Lemma process_end_time_cancel (seconds : Z) (g : pb) :
  15 <= seconds -> performs Cancel g (process_end_time seconds g).
Proof.
  intros H. unfold process_end_time. band_cases seconds; try lia.
  cbn. rewrite <- ?app_assoc. auto.
Qed.

Lemma process_end_time_shutdown (seconds : Z) (g : pb) :
  10 <= seconds < 15 -> performs Shutdown g (process_end_time seconds g).
Proof.
  intros H. unfold process_end_time. band_cases seconds; try lia.
  cbn. rewrite <- ?app_assoc. auto.
Qed.

Lemma process_end_time_fc_set (seconds : Z) (g : pb) :
  5 <= seconds < 10 -> performs Schedule_reset g (process_end_time seconds g).
Proof.
  intros H. unfold process_end_time. band_cases seconds; try lia.
  cbn. rewrite <- ?app_assoc. auto.
Qed.

Lemma process_end_time_reboot (seconds : Z) (g : pb) :
  seconds < 5 -> state g = PB_STATE_INUSE ->
  performs Reboot g (process_end_time seconds g).
Proof.
  intros H Hst. unfold process_end_time. band_cases seconds; try lia.
  rewrite Hst. cbn. rewrite <- ?app_assoc. auto.
Qed.

Lemma process_end_time_factory_reset (seconds : Z) (g : pb) :
  seconds < 5 -> state g = PB_STATE_START ->
  performs Factory_reset g (process_end_time seconds g).
Proof.
  intros H Hst. unfold process_end_time. band_cases seconds; try lia.
  rewrite Hst. cbn. rewrite <- ?app_assoc. auto.
Qed.

Lemma performs_unique (a b : action) (g g' : pb) :
  performs a g g' -> performs b g g' -> a = b.
Proof.
  destruct a, b; cbn; intros [Ha _] [Hb _]; try reflexivity;
    rewrite Ha in Hb; apply app_inv_head in Hb; cbv in Hb; discriminate.
Qed.

Lemma process_end_time_performs (seconds : Z) (g : pb) :
  exists a, performs a g (process_end_time seconds g).
Proof.
  band_cases seconds.
  - exists Cancel. now apply process_end_time_cancel.
  - exists Shutdown. apply process_end_time_shutdown. lia.
  - exists Schedule_reset. apply process_end_time_fc_set. lia.
  - destruct (state g) eqn:Hst.
    + exists Factory_reset. now apply process_end_time_factory_reset.
    + exists Reboot. now apply process_end_time_reboot.
Qed.

(** The release of an open press, read at a later time, hands the whole
    seconds of the elapsed time to [process_end_time]. *)
Lemma release_open (m : monitor) (stop : timespec) :
  start_is_set (timer_start m) = true ->
  clock_reading (timer_start m) -> clock_reading stop ->
  0 < elapsed (timer_start m) stop ->
  handle_event RELEASE (Some stop) m =
    Some (Next,
          mk_monitor
            (system (str_sys_call_led LED_FLASH_GREEN)
               (process_end_time (elapsed (timer_start m) stop / 1000000000)
                  (glob m)))
            timespec_zero).
Proof.
  intros Hset Hstart Hstop Hpos.
  unfold handle_event, RELEASE, test_time. cbn.
  rewrite Hset, (timespec_diff_nanoseconds _ _ Hstart Hstop).
  destruct (Z.eqb_spec (elapsed (timer_start m) stop) 0) as [H0 | _]; [lia |].
  cbn. rewrite ulong_of_double_floor;
    [reflexivity | lia | now apply elapsed_seconds_bound].
Qed.

Lemma release_open_dispatches (m : monitor) (stop : timespec) :
  start_is_set (timer_start m) = true ->
  clock_reading (timer_start m) -> clock_reading stop ->
  0 < elapsed (timer_start m) stop ->
  exists m' a,
    handle_event RELEASE (Some stop) m = Some (Next, m') /\
    release_dispatches a m m' /\
    forall b, release_dispatches b m m' -> b = a.
Proof.
  intros Hset Hstart Hstop Hpos.
  rewrite (release_open m stop Hset Hstart Hstop Hpos).
  set (seconds := elapsed (timer_start m) stop / 1000000000).
  destruct (process_end_time_performs seconds (glob m)) as [a Ha].
  eexists. exists a. split; [reflexivity |]. split.
  - exists (process_end_time seconds (glob m)). cbn. auto.
  - intros b (g1 & Hb & Hg & _). cbn in Hg.
    assert (g1 = process_end_time seconds (glob m)) as ->.
    { destruct g1 as [s1 b1 f1 o1].
      destruct (process_end_time seconds (glob m)) as [s2 b2 f2 o2].
      unfold system, emit in Hg. cbn in Hg. injection Hg as -> -> -> Ho.
      apply app_inv_tail in Ho. now subst. }
    exact (performs_unique _ _ _ _ Hb Ha).
Qed.

Ltac concrete_clock :=
  first [ reflexivity
        | unfold clock_reading, elapsed, nanoseconds; cbn; lia ].

Lemma whole_seconds_band (t k : Z) :
  0 <= t -> (t / 1000000000 < k <-> t < k * 1000000000).
Proof.
  intros H. split; intros Hlt.
  - assert (Hd := Z.mul_succ_div_gt t 1000000000 ltac:(lia)). nia.
  - apply Z.div_lt_upper_bound; lia.
Qed.

(** ** Releases of five seconds and more in mode START *)

Lemma process_end_time_from_5s (seconds : Z) (g : pb) :
  5 <= seconds ->
  exists a,
    (a = Cancel \/ a = Shutdown \/ a = Schedule_reset) /\
    performs a g (process_end_time seconds g) /\
    state (process_end_time seconds g) = state g.
Proof.
  intros H. band_cases seconds; try lia.
  - exists Cancel. split; [auto |].
    assert (Hp := process_end_time_cancel seconds g ltac:(lia)).
    split; [exact Hp | apply Hp].
  - exists Shutdown. split; [auto |].
    assert (Hp := process_end_time_shutdown seconds g ltac:(lia)).
    split; [exact Hp | apply Hp].
  - exists Schedule_reset. split; [auto |].
    assert (Hp := process_end_time_fc_set seconds g ltac:(lia)).
    split; [exact Hp | apply Hp].
Qed.

(** C2, as the code has it. A release of five seconds or more in mode
    START takes the same branch as in mode INUSE (cancel, shutdown or
    marker file, with the same effects), and the mode stays START: the
    dispatcher leaves the mode alone in these branches, and so does the
    release handling of [main]. *)
Theorem startup_release_from_5s_keeps_mode :
  (forall (seconds : Z) (g : pb),
      5 <= seconds -> state g = PB_STATE_START ->
      let g' := process_end_time seconds g in
      let h := set_state PB_STATE_INUSE g in
      let h' := process_end_time seconds h in
      (exists a, (a = Cancel \/ a = Shutdown \/ a = Schedule_reset) /\
                 performs a g g' /\ performs a h h') /\
      new_effects g g' = new_effects h h' /\
      fc_set g' = fc_set h' /\
      state g' = PB_STATE_START) /\
  (forall (m : monitor) (stop : timespec),
      state (glob m) = PB_STATE_START ->
      start_is_set (timer_start m) = true ->
      clock_reading (timer_start m) -> clock_reading stop ->
      5000000000 <= elapsed (timer_start m) stop ->
      exists m',
        handle_event RELEASE (Some stop) m = Some (Next, m') /\
        state (glob m') = PB_STATE_START).
Proof.
  split.
  - intros seconds g H5 Hst g' h h'. subst g' h' h.
    destruct (process_end_time_from_5s seconds g H5) as (a & Ha & Hp & Hs).
    destruct (process_end_time_from_5s seconds (set_state PB_STATE_INUSE g) H5)
      as (b & Hb & Hq & Ht).
    assert (Hab : a = b).
    { revert Hp Hq Ha Hb. unfold process_end_time.
      band_cases seconds; try lia;
        destruct a, b; cbn; rewrite <- ?app_assoc;
        intros [Hp _] [Hq _]; intros;
        try reflexivity;
        try (apply app_inv_head in Hp; cbv in Hp; discriminate);
        try (apply app_inv_head in Hq; cbv in Hq; discriminate);
        intuition discriminate. }
    subst b. split; [exists a; auto |].
    split; [| split].
    + destruct a; cbn in Hp, Hq; destruct Hp as [Hp _], Hq as [Hq _];
        rewrite (new_effects_app g _ _ Hp),
          (new_effects_app (set_state PB_STATE_INUSE g) _ _ Hq);
        reflexivity.
    + destruct Ha as [-> | [-> | ->]]; cbn in Hp, Hq;
        destruct Hp as (_ & _ & Hp & _), Hq as (_ & _ & Hq & _);
        rewrite Hp, Hq; reflexivity.
    + rewrite Hs. exact Hst.
  - intros m stop Hst Hset Hstart Hstop Hel.
    rewrite (release_open m stop Hset Hstart Hstop ltac:(lia)).
    eexists. split; [reflexivity |]. cbn.
    destruct (process_end_time_from_5s
                (elapsed (timer_start m) stop / 1000000000) (glob m))
      as (a & _ & _ & Hs).
    + apply Z.div_le_lower_bound; lia.
    + rewrite Hs. exact Hst.
Qed.

Lemma startup_release_from_5s_keeps_mode_witness :
  let g := mk_pb PB_STATE_START check_factory_reset_cmd false [] in
  5 <= 12 /\ state g = PB_STATE_START /\
  state (process_end_time 12 g) = PB_STATE_START.
Proof.
  intros g. split; [lia |]. split; [reflexivity |].
  apply (proj1 startup_release_from_5s_keeps_mode 12 g); [lia | reflexivity].
Defined.

(** C2, as the claim has it, fails: a press of 7 s released in the grace
    window creates the marker file and leaves the mode START; the same
    holds after 12 s (shutdown) and 17 s (cancel). *)
Lemma startup_release_7s_mode_not_inuse :
  let m := main_init false (Some ENOENT) Timer_ok in
  state (glob m) = PB_STATE_START /\
  (forall m',
      run [Loop_pass (Read_events [(PRESS, Some (mk_timespec 100 0))])
             (Some (mk_timespec 100 1000));
           Loop_pass (Read_events [(RELEASE, Some (mk_timespec 107 0))])
             (Some (mk_timespec 107 1000))] m = Some m' ->
      fc_set (glob m') = true /\ state (glob m') <> PB_STATE_INUSE) /\
  state (process_end_time 7 (glob m)) <> PB_STATE_INUSE /\
  state (process_end_time 12 (glob m)) <> PB_STATE_INUSE /\
  state (process_end_time 17 (glob m)) <> PB_STATE_INUSE.
Proof.
  cbv zeta. split; [reflexivity |]. split; [| repeat split; discriminate].
  intros m' H. vm_compute in H. injection H as <-.
  split; [reflexivity | discriminate].
Qed.

(** ** LED feedback *)

Lemma led_of_cmd_led (l : led_state) : led_of_cmd (str_sys_call_led l) = Some l.
Proof. destruct l; reflexivity. Qed.

Lemma led_commands_app (es fs : list effect) :
  led_commands (es ++ fs) = led_commands es ++ led_commands fs.
Proof.
  induction es as [| e es IH]; [reflexivity |].
  destruct e; cbn [app led_commands]; try exact IH.
  destruct (led_of_cmd cmd0); [cbn; f_equal |]; exact IH.
Qed.

Lemma led_after_led (es : list effect) (l : led_state) :
  led_after (es ++ [System (str_sys_call_led l)]) = Some l.
Proof.
  unfold led_after. rewrite led_commands_app. cbn [led_commands].
  rewrite led_of_cmd_led, map_app. cbn [map]. apply last_last.
Qed.

Lemma process_time_inuse (seconds : Z) (g : pb) :
  state g = PB_STATE_INUSE ->
  (15 <= seconds ->
   process_time seconds g = system (str_sys_call_led LED_FLASH_GREEN) g) /\
  (10 <= seconds < 15 ->
   process_time seconds g = system (str_sys_call_led LED_FLASH_RED) g) /\
  (5 <= seconds < 10 ->
   process_time seconds g = system (str_sys_call_led LED_RED) g) /\
  (seconds < 5 -> process_time seconds g = g).
Proof.
  intros Hst. unfold process_time. rewrite Hst.
  band_cases seconds; repeat split; intros; try reflexivity; lia.
Qed.

Lemma process_time_start (seconds : Z) (g : pb) :
  state g = PB_STATE_START -> process_time seconds g = g.
Proof. intros Hst. unfold process_time. now rewrite Hst. Qed.

(** The sample at the end of a pass, with the press open and the clock
    read at a later time, hands the whole seconds held so far to
    [process_time]. *)
Lemma sample_open (m : monitor) (now : timespec) :
  start_is_set (timer_start m) = true ->
  clock_reading (timer_start m) -> clock_reading now ->
  0 < elapsed (timer_start m) now ->
  sample (Some now) m =
    Some (mk_monitor
            (process_time (elapsed (timer_start m) now / 1000000000) (glob m))
            (timer_start m)).
Proof.
  intros Hset Hstart Hnow Hpos. unfold sample, test_time.
  rewrite Hset, (timespec_diff_nanoseconds _ _ Hstart Hnow).
  destruct (Z.eqb_spec (elapsed (timer_start m) now) 0) as [H0 | _]; [lia |].
  cbn. rewrite ulong_of_double_floor;
    [reflexivity | lia | now apply elapsed_seconds_bound].
Qed.

Lemma process_time_new_effects (seconds : Z) (g h : pb) :
  state g = state h ->
  new_effects g (process_time seconds g) = new_effects h (process_time seconds h).
Proof.
  intros Hst. unfold process_time. rewrite <- Hst.
  assert (Hnone : forall k : pb, new_effects k k = []).
  { intros k. apply new_effects_app. now rewrite app_nil_r. }
  assert (Hone : forall (k : pb) c, new_effects k (system c k) = [System c]).
  { intros k c. now apply new_effects_app. }
  destruct (state g); [now rewrite !Hnone |].
  band_cases seconds; now rewrite ?Hone, ?Hnone.
Qed.




(** ** What every step preserves *)

Lemma append_nil_r (s : string) : (s ++ "")%string = s.
Proof. induction s as [| c s IH]; cbn; [reflexivity | now rewrite IH]. Qed.

Lemma append_assoc (a b c : string) :
  ((a ++ b) ++ c)%string = (a ++ (b ++ c))%string.
Proof. induction a as [| x a IH]; cbn; [reflexivity | now rewrite IH]. Qed.

Lemma length_append (a b : string) :
  String.length (a ++ b) = (String.length a + String.length b)%nat.
Proof. induction a as [| x a IH]; cbn; [reflexivity | now rewrite IH]. Qed.

Lemma evolves_refl (g : pb) : evolves g g.
Proof.
  repeat split; auto.
  - exists ""%string. now rewrite append_nil_r.
  - exists []. now rewrite app_nil_r.
Qed.

Lemma evolves_trans (g1 g2 g3 : pb) :
  evolves g1 g2 -> evolves g2 g3 -> evolves g1 g3.
Proof.
  intros (Hm1 & Hb1 & [s1 Hs1] & [d1 Hd1]) (Hm2 & Hb2 & [s2 Hs2] & [d2 Hd2]).
  repeat split.
  - auto.
  - intros H3. rewrite (Hb2 H3). apply Hb1.
    destruct (state g2) eqn:E; [reflexivity |].
    rewrite (Hm2 eq_refl) in H3. discriminate.
  - exists (s1 ++ s2)%string. now rewrite Hs2, Hs1, append_assoc.
  - exists (d1 ++ d2). now rewrite Hd2, Hd1, app_assoc.
Qed.

Ltac solve_evolves :=
  unfold evolves; cbn; repeat split;
  try congruence;
  try (exists ""%string; now rewrite append_nil_r);
  try (eexists; reflexivity);
  try (exists []; now rewrite app_nil_r);
  try (eexists; rewrite <- ?app_assoc; reflexivity).

Lemma evolves_emit (e : effect) (g : pb) : evolves g (emit e g).
Proof. solve_evolves. Qed.

Lemma evolves_timer_handler (sig : Z) (g : pb) : evolves g (timer_handler sig g).
Proof.
  unfold timer_handler. destruct (state g) eqn:Hst; solve_evolves.
Qed.

Lemma evolves_process_time (seconds : Z) (g : pb) :
  evolves g (process_time seconds g).
Proof.
  unfold process_time. destruct (state g) eqn:Hst; [solve_evolves |].
  band_cases seconds; solve_evolves.
Qed.

Lemma evolves_process_end_time (seconds : Z) (g : pb) :
  evolves g (process_end_time seconds g).
Proof.
  unfold process_end_time.
  band_cases seconds; [| | | destruct (state g) eqn:Hst]; solve_evolves.
Qed.

Lemma evolves_check_inuse_factory_reset (stat_errno : option Z) (g : pb) :
  evolves g (snd (check_inuse_factory_reset stat_errno g)).
Proof.
  unfold check_inuse_factory_reset.
  destruct (match stat_errno with Some e => e =? ENOENT | None => false end);
    solve_evolves.
Qed.

(** *** From the functions to the steps of the monitor

    A relation on the globals that is reflexive and transitive and that
    holds across the messages, the LED command of [main] and the three
    functions
    that [main] and the signal handler call, holds across every step
    and every run of the monitor. *)
Section Lifting.

Variable R : pb -> pb -> Prop.

Hypothesis R_refl : forall g, R g g.
Hypothesis R_trans : forall g1 g2 g3, R g1 g2 -> R g2 g3 -> R g1 g3.
Hypothesis R_printf : forall fmt args g, R g (printf fmt args g).
Hypothesis R_perror : forall msg g, R g (perror msg g).
Hypothesis R_led :
  forall g, R g (system (str_sys_call_led LED_FLASH_GREEN) g).
Hypothesis R_timer_handler : forall sig g, R g (timer_handler sig g).
Hypothesis R_process_time : forall seconds g, R g (process_time seconds g).
Hypothesis R_process_end_time :
  forall seconds g, R g (process_end_time seconds g).

Lemma lift_test_time (start : timespec) (clk : clock) (g : pb) :
  R g (snd (test_time start clk g)).
Proof.
  unfold test_time. destruct (start_is_set start); [| apply R_refl].
  destruct clk; [apply R_refl | apply R_perror].
Qed.

Lemma lift_handle_event (ev : input_event) (clk : clock) (m m' : monitor)
    (f : flow) :
  handle_event ev clk m = Some (f, m') -> R (glob m) (glob m').
Proof.
  unfold handle_event.
  destruct (negb (ev_type ev =? EV_KEY));
    [intros [= _ <-]; apply R_refl |].
  destruct (ev_code ev =? 256);
    [| intros [= _ <-]; apply R_refl].
  destruct (ev_value ev =? 1).
  { destruct clk; intros [= _ <-]; [apply R_refl | apply R_perror]. }
  destruct (ev_value ev =? 0);
    [| intros [= _ <-]; apply R_refl].
  assert (Ht := lift_test_time (timer_start m) clk (glob m)).
  destruct (test_time (timer_start m) clk (glob m)) as [t g1]. cbn in Ht.
  destruct (negb (t =? 0)).
  - destruct (ulong_of_double t) as [seconds |]; [| discriminate].
    intros [= _ <-]. cbn [glob].
    eapply R_trans; [exact Ht |].
    eapply R_trans;
      [apply R_process_end_time | apply R_led].
  - intros [= _ <-]. cbn [glob].
    eapply R_trans; [exact Ht | apply R_printf].
Qed.

Lemma lift_for_events (evs : list (input_event * clock)) (m m' : monitor) :
  for_events evs m = Some m' -> R (glob m) (glob m').
Proof.
  revert m. induction evs as [| [ev clk] rest IH]; intros m; cbn.
  - intros [= <-]. apply R_refl.
  - destruct (handle_event ev clk m) as [[[|] m1] |] eqn:He; [| | discriminate].
    + intros H. eapply R_trans;
        [exact (lift_handle_event _ _ _ _ _ He) | exact (IH _ H)].
    + intros [= <-]. exact (lift_handle_event _ _ _ _ _ He).
Qed.

Lemma lift_sample (clk : clock) (m m' : monitor) :
  sample clk m = Some m' -> R (glob m) (glob m').
Proof.
  unfold sample.
  assert (Ht := lift_test_time (timer_start m) clk (glob m)).
  destruct (test_time (timer_start m) clk (glob m)) as [t g1]. cbn in Ht.
  destruct (negb (t =? 0)).
  - destruct (ulong_of_double t) as [seconds |]; [| discriminate].
    intros [= <-]. cbn [glob].
    eapply R_trans; [exact Ht | apply R_process_time].
  - intros [= <-]. exact Ht.
Qed.

Lemma lift_step (e : event) (m m' : monitor) :
  step e m = Some m' -> R (glob m) (glob m').
Proof.
  destruct e as [sig | rd clk]; cbn.
  - intros [= <-]. apply R_timer_handler.
  - unfold loop_body. destruct rd as [eintr | evs].
    + intros H. apply lift_sample in H.
      destruct eintr; [exact H |].
      eapply R_trans; [apply R_perror | exact H].
    + destruct (for_events evs m) as [m1 |] eqn:Hf; [| discriminate].
      intros H. eapply R_trans;
        [exact (lift_for_events _ _ _ Hf) | exact (lift_sample _ _ _ H)].
Qed.

Lemma lift_run (es : list event) (m m' : monitor) :
  run es m = Some m' -> R (glob m) (glob m').
Proof.
  revert m. induction es as [| e rest IH]; intros m; cbn.
  - intros [= <-]. apply R_refl.
  - destruct (step e m) as [m1 |] eqn:Hs; [| discriminate].
    intros H. eapply R_trans;
      [exact (lift_step _ _ _ Hs) | exact (IH _ H)].
Qed.

End Lifting.

Lemma evolves_step (e : event) (m m' : monitor) :
  step e m = Some m' -> evolves (glob m) (glob m').
Proof.
  apply (lift_step evolves evolves_refl evolves_trans);
    intros; first [ apply evolves_emit | apply evolves_timer_handler
                  | apply evolves_process_time | apply evolves_process_end_time ].
Qed.

Lemma evolves_run (es : list event) (m m' : monitor) :
  run es m = Some m' -> evolves (glob m) (glob m').
Proof.
  apply (lift_run evolves evolves_refl evolves_trans);
    intros; first [ apply evolves_emit | apply evolves_timer_handler
                  | apply evolves_process_time | apply evolves_process_end_time ].
Qed.

Lemma evolves_mode (g g' : pb) :
  evolves g g' -> state g' = state g \/ state g' = PB_STATE_INUSE.
Proof.
  intros [Hm _]. destruct (state g), (state g'); auto.
Qed.

(** In mode START the command buffer still has its initial content. *)
Lemma start_buffer_initial (m : monitor) :
  reachable m -> state (glob m) = PB_STATE_START ->
  str_sys_call_check_factory_reset (glob m) = check_factory_reset_cmd.
Proof.
  induction 1 as [fs st env | m m' e Hr IH Hs].
  - unfold main_init, check_inuse_factory_reset.
    destruct (match st with Some e => e =? ENOENT | None => false end);
      destruct env; cbn; congruence.
  - intros Hst. destruct (evolves_step _ _ _ Hs) as (Hm & Hb & _).
    rewrite (Hb Hst). apply IH.
    destruct (state (glob m)); [reflexivity |].
    rewrite (Hm eq_refl) in Hst. discriminate.
Qed.

(** ** The mode never goes back *)

(** C8. Every operation that touches the mode (the timer handler, the
    dispatcher, the start-up check) leaves it as it is or sets it to
    INUSE, so does every step of the monitor, and once the mode is
    INUSE it is INUSE after any further events: no step of an
    execution takes the mode from INUSE back to START. The monitor
    starts in START, or in INUSE when the marker file is found. *)
Theorem mode_monotone :
  (forall (sig : Z) (g : pb),
      state (timer_handler sig g) = state g \/
      state (timer_handler sig g) = PB_STATE_INUSE) /\
  (forall (seconds : Z) (g : pb),
      state (process_end_time seconds g) = state g \/
      state (process_end_time seconds g) = PB_STATE_INUSE) /\
  (forall (stat_errno : option Z) (g : pb),
      state (snd (check_inuse_factory_reset stat_errno g)) = state g \/
      state (snd (check_inuse_factory_reset stat_errno g)) = PB_STATE_INUSE) /\
  (forall (fs : bool) (env : timer_env),
      state (glob (main_init fs (Some ENOENT) env)) = PB_STATE_START /\
      state (glob (main_init fs None env)) = PB_STATE_INUSE) /\
  (forall (e : event) (m m' : monitor),
      step e m = Some m' ->
      state (glob m') = state (glob m) \/ state (glob m') = PB_STATE_INUSE) /\
  (forall (es : list event) (m m' : monitor),
      run es m = Some m' ->
      state (glob m) = PB_STATE_INUSE -> state (glob m') = PB_STATE_INUSE) /\
  (forall (e : event) (m m' : monitor),
      reachable m -> step e m = Some m' ->
      ~ (state (glob m) = PB_STATE_INUSE /\ state (glob m') = PB_STATE_START)).
Proof.
  split; [intros; apply evolves_mode, evolves_timer_handler |].
  split; [intros; apply evolves_mode, evolves_process_end_time |].
  split; [intros; apply evolves_mode, evolves_check_inuse_factory_reset |].
  split; [intros fs env; destruct env; split; reflexivity |].
  split; [intros e m m' H; apply evolves_mode, (evolves_step _ _ _ H) |].
  split.
  - intros es m m' H. exact (proj1 (evolves_run _ _ _ H)).
  - intros e m m' _ H [Hin Hst].
    rewrite (proj1 (evolves_step _ _ _ H) Hin) in Hst. discriminate.
Qed.

Lemma mode_monotone_witness :
  let m := main_init true None Timer_ok in
  let es := [Loop_pass (Read_events [(PRESS, Some (mk_timespec 100 0))])
               (Some (mk_timespec 100 1000));
             Timer_signal 34;
             Loop_pass (Read_events [(RELEASE, Some (mk_timespec 112 0))])
               (Some (mk_timespec 112 1000))] in
  exists m', run es m = Some m' /\ state (glob m') = PB_STATE_INUSE.
Proof.
  intros m es. eexists. split; [vm_compute; reflexivity |].
  apply (proj1 (proj2 (proj2 (proj2 (proj2 (proj2 mode_monotone))))) es m);
    reflexivity.
Defined.

(** ** Expiry of the grace timer *)

Lemma timer_handler_start (sig : Z) (g : pb) :
  state g = PB_STATE_START ->
  timer_handler sig g =
    mk_pb PB_STATE_INUSE
      (str_sys_call_check_factory_reset g ++ "0")%string
      (fc_set g)
      (out g ++
         [Printf ("Signal %d - Changes pb mode to in-use" ++ nl) [sig];
          System (str_sys_call_led LED_FLASH_GREEN);
          System (str_sys_call_check_factory_reset g ++ "0")%string]).
Proof.
  intros Hst. unfold timer_handler. rewrite Hst. exec. reflexivity.
Qed.

Lemma timer_handler_inuse (sig : Z) (g : pb) :
  state g = PB_STATE_INUSE -> timer_handler sig g = g.
Proof. intros Hst. unfold timer_handler. now rewrite Hst. Qed.

Lemma handle_event_no_button (ev : input_event) (clk : clock) (m : monitor) :
  button_edge ev = false -> handle_event ev clk m = Some (Next, m).
Proof.
  unfold button_edge, handle_event. intros H.
  destruct (ev_type ev =? EV_KEY); cbn in *; [| reflexivity].
  now rewrite H.
Qed.

Lemma for_events_no_button (evs : list (input_event * clock)) (m : monitor) :
  forallb (fun p => negb (button_edge (fst p))) evs = true ->
  for_events evs m = Some m.
Proof.
  induction evs as [| [ev clk] rest IH]; cbn; [reflexivity |].
  intros H. apply andb_true_iff in H. destruct H as [Hev Hrest].
  apply negb_true_iff in Hev.
  rewrite (handle_event_no_button _ _ _ Hev). exact (IH Hrest).
Qed.

Lemma sample_mode (clk : clock) (m m' : monitor) :
  sample clk m = Some m' -> state (glob m') = state (glob m).
Proof.
  unfold sample, test_time.
  destruct (start_is_set (timer_start m)); [destruct clk as [now |] |]; cbn.
  - destruct (negb (_ =? 0)); [| now intros [= <-]].
    destruct (ulong_of_double _) as [seconds |]; [| discriminate].
    intros [= <-]. cbn. unfold process_time.
    destruct (state (glob m)) eqn:Hst; [exact Hst |].
    band_cases seconds; exact Hst.
  - now intros [= <-].
  - now intros [= <-].
Qed.

Lemma no_button_mode (e : event) (m m' : monitor) :
  step e m = Some m' -> no_button e = true ->
  state (glob m') <> state (glob m) -> exists sig, e = Timer_signal sig.
Proof.
  destruct e as [sig | rd clk]; [intros; now exists sig |].
  cbn. unfold loop_body. intros Hs Hnb Hneq. exfalso. apply Hneq.
  destruct rd as [eintr | evs].
  - rewrite (sample_mode _ _ _ Hs). now destruct eintr.
  - rewrite (for_events_no_button _ _ Hnb) in Hs. exact (sample_mode _ _ _ Hs).
Qed.

(** C4. When the timer signal arrives in mode START and no release has
    been dispatched (the command buffer still has its initial content),
    the handler sets the mode to INUSE and the LED to FLASH_GREEN. It
    runs two commands, the LED command and the factory-reset script
    with the flag 0, the call that must not cause a factory reset: it
    runs neither reboot nor shutdown nor the script with the flag 1,
    and it leaves the marker file alone. In every execution in which
    the handler runs between two passes of the loop the buffer has its
    initial content as long as the mode is START. Among the events in
    which the button takes no part, the timer signal is the only one
    that changes the mode. *)
Theorem grace_timer_expiry :
  (forall (sig : Z) (g : pb),
      state g = PB_STATE_START ->
      str_sys_call_check_factory_reset g
        = "/usr/local/bin/check-factory-reset.sh " ->
      let g' := timer_handler sig g in
      state g' = PB_STATE_INUSE /\
      led_after (out g') = Some LED_FLASH_GREEN /\
      new_effects g g' =
        [Printf ("Signal %d - Changes pb mode to in-use" ++ nl) [sig];
         System "./set_led.sh 3";
         System "/usr/local/bin/check-factory-reset.sh 0"] /\
      ~ In "reboot" (commands (new_effects g g')) /\
      ~ In "shutdown -h now" (commands (new_effects g g')) /\
      ~ In "/usr/local/bin/check-factory-reset.sh 1"
           (commands (new_effects g g')) /\
      fc_set g' = fc_set g) /\
  (forall m : monitor,
      reachable m -> state (glob m) = PB_STATE_START ->
      str_sys_call_check_factory_reset (glob m)
        = "/usr/local/bin/check-factory-reset.sh ") /\
  (forall (e : event) (m m' : monitor),
      step e m = Some m' -> no_button e = true ->
      state (glob m') <> state (glob m) ->
      exists sig, e = Timer_signal sig).
Proof.
  split; [| split].
  - intros sig g Hst Hbuf g'. subst g'.
    rewrite (timer_handler_start sig g Hst), Hbuf, new_effects_mk_pb.
    cbn [state out fc_set].
    split; [reflexivity |]. split.
    { unfold led_after. rewrite led_commands_app.
      match goal with
      | |- context [led_commands ?l ++ led_commands ?r] =>
          change (led_commands r) with [LED_FLASH_GREEN]
      end.
      rewrite map_app. apply last_last. }
    split; [reflexivity |].
    cbn [commands In].
    split; [intros [H | [H | []]]; discriminate |].
    split; [intros [H | [H | []]]; discriminate |].
    split; [intros [H | [H | []]]; discriminate | reflexivity].
  - exact start_buffer_initial.
  - exact no_button_mode.
Qed.

Lemma grace_timer_expiry_witness :
  let g := glob (main_init false (Some ENOENT) Timer_ok) in
  state g = PB_STATE_START /\
  str_sys_call_check_factory_reset g
    = "/usr/local/bin/check-factory-reset.sh " /\
  commands (new_effects g (timer_handler 34 g)) =
    ["./set_led.sh 3"; "/usr/local/bin/check-factory-reset.sh 0"].
Proof.
  intros g.
  assert (Hst : state g = PB_STATE_START) by reflexivity.
  assert (Hbuf : str_sys_call_check_factory_reset g
                 = "/usr/local/bin/check-factory-reset.sh ") by reflexivity.
  split; [exact Hst |]. split; [exact Hbuf |].
  destruct (proj1 grace_timer_expiry 34 g Hst Hbuf) as (_ & _ & H & _).
  now rewrite H.
Defined.

(** ** The command line of the factory-reset script *)

Lemma flags_string_app (a b : list bool) :
  flags_string (a ++ b) = (flags_string a ++ flags_string b)%string.
Proof.
  induction a as [| f a IH]; [reflexivity |].
  cbn [app flags_string]. now rewrite IH, append_assoc.
Qed.

Lemma commands_app (es fs : list effect) :
  commands (es ++ fs) = commands es ++ commands fs.
Proof.
  induction es as [| e es IH]; [reflexivity |].
  destruct e; cbn [app commands]; try exact IH. now rewrite IH.
Qed.

Lemma factory_reset_calls_app (es fs : list effect) :
  factory_reset_calls (es ++ fs) =
    factory_reset_calls es ++ factory_reset_calls fs.
Proof. unfold factory_reset_calls. now rewrite commands_app, filter_app. Qed.

(** *** What the flags do to [str_sys_call_reboot]

    The first flag fills the last byte of the buffer and its NUL falls
    on the first byte of [str_sys_call_reboot]; every further flag
    moves the NUL one byte on. *)

Lemma c_string_flags_string (flags : list bool) (t : string) :
  c_string (flags_string flags ++ String NUL t) = flags_string flags.
Proof.
  induction flags as [| f rest IH]; [reflexivity |].
  cbn [flags_string]. rewrite append_assoc.
  destruct f; cbn [flag_string append c_string];
    [ change (Ascii.eqb "1"%char NUL) with false
    | change (Ascii.eqb "0"%char NUL) with false ];
    now rewrite IH.
Qed.

Lemma str_sys_call_reboot_flags (g : pb) (flags : list bool) :
  str_sys_call_check_factory_reset g =
    (check_factory_reset_cmd ++ flags_string flags)%string ->
  str_sys_call_reboot g =
    match flags with
    | [] => "reboot"
    | _ :: rest => flags_string rest
    end.
Proof.
  intros H. unfold str_sys_call_reboot, segment. rewrite H.
  destruct flags as [| f rest]; [reflexivity |].
  cbn [flags_string]. rewrite !append_assoc.
  unfold check_factory_reset_cmd.
  destruct f; cbn [flag_string append skip]; apply c_string_flags_string.
Qed.

Lemma flags_string_no_script (flags : list bool) :
  String.prefix check_factory_reset_cmd (flags_string flags) = false.
Proof. destruct flags as [| [|] rest]; reflexivity. Qed.

Lemma flags_string_no_led (flags : list bool) :
  led_of_cmd (flags_string flags) = None.
Proof. destruct flags as [| [|] rest]; reflexivity. Qed.

Lemma flags_string_no_reboot (flags : list bool) :
  flags_string flags <> "reboot".
Proof. destruct flags as [| [|] rest]; discriminate. Qed.

Lemma reboot_no_script (g : pb) :
  flags_appended g ->
  String.prefix check_factory_reset_cmd (str_sys_call_reboot g) = false.
Proof.
  intros (flags & Hf & _). rewrite (str_sys_call_reboot_flags g flags Hf).
  destruct flags; [reflexivity | apply flags_string_no_script].
Qed.

Lemma reboot_no_led (g : pb) :
  flags_appended g -> led_of_cmd (str_sys_call_reboot g) = None.
Proof.
  intros (flags & Hf & _). rewrite (str_sys_call_reboot_flags g flags Hf).
  destruct flags; [reflexivity | apply flags_string_no_led].
Qed.

Lemma reboot_overwritten (g : pb) :
  flags_appended g -> state g = PB_STATE_INUSE ->
  str_sys_call_reboot g <> "reboot".
Proof.
  intros (flags & Hf & Hn) Hst. rewrite (str_sys_call_reboot_flags g flags Hf).
  destruct flags; [now elim (Hn Hst) | apply flags_string_no_reboot].
Qed.

(** *** The shape of the buffer in an execution *)

Lemma flags_appended_same (g g' : pb) :
  state g' = state g ->
  str_sys_call_check_factory_reset g' = str_sys_call_check_factory_reset g ->
  flags_appended g -> flags_appended g'.
Proof. intros Hs Hb (flags & Hf & Hn). exists flags. now rewrite Hs, Hb. Qed.

Lemma flags_appended_flag (g g' : pb) (flag : bool) :
  str_sys_call_check_factory_reset g' =
    (str_sys_call_check_factory_reset g ++ flag_string flag)%string ->
  flags_appended g -> flags_appended g'.
Proof.
  intros Hb (flags & Hf & _). exists (flags ++ [flag]). split.
  - rewrite Hb, Hf, flags_string_app, append_assoc. cbn [flags_string].
    now rewrite append_nil_r.
  - intros _ H. apply app_eq_nil in H. destruct H. discriminate.
Qed.

Lemma flags_appended_timer_handler (sig : Z) (g : pb) :
  flags_appended g -> flags_appended (timer_handler sig g).
Proof.
  destruct (state g) eqn:Hst.
  - rewrite (timer_handler_start sig g Hst).
    now apply (flags_appended_flag g _ false).
  - now rewrite (timer_handler_inuse sig g Hst).
Qed.

Lemma flags_appended_process_time (seconds : Z) (g : pb) :
  flags_appended g -> flags_appended (process_time seconds g).
Proof.
  unfold process_time. destruct (state g) eqn:Hst; [auto |].
  band_cases seconds; auto; now apply flags_appended_same.
Qed.

Lemma flags_appended_process_end_time (seconds : Z) (g : pb) :
  flags_appended g -> flags_appended (process_end_time seconds g).
Proof.
  unfold process_end_time.
  band_cases seconds; [| | | destruct (state g) eqn:Hst];
    first [ now apply flags_appended_same
          | now apply (flags_appended_flag g _ true) ].
Qed.

(** The lifting of the section above for relations that hold across the
    functions only where the buffer has the shape [flags_appended]. *)
Section Lifting_flags.

Variable R : pb -> pb -> Prop.

Hypothesis R_refl : forall g, R g g.
Hypothesis R_trans : forall g1 g2 g3, R g1 g2 -> R g2 g3 -> R g1 g3.
Hypothesis R_printf : forall fmt args g, R g (printf fmt args g).
Hypothesis R_perror : forall msg g, R g (perror msg g).
Hypothesis R_led :
  forall g, R g (system (str_sys_call_led LED_FLASH_GREEN) g).
Hypothesis R_timer_handler :
  forall sig g, flags_appended g -> R g (timer_handler sig g).
Hypothesis R_process_time : forall seconds g, R g (process_time seconds g).
Hypothesis R_process_end_time :
  forall seconds g, flags_appended g -> R g (process_end_time seconds g).

Lemma lift_step_flags (e : event) (m m' : monitor) :
  step e m = Some m' ->
  flags_appended (glob m) -> flags_appended (glob m') /\ R (glob m) (glob m').
Proof.
  apply (lift_step (fun g g' => flags_appended g -> flags_appended g' /\ R g g')).
  - intros g H. split; [exact H | apply R_refl].
  - intros g1 g2 g3 H12 H23 H1.
    destruct (H12 H1) as [H2 R12]. destruct (H23 H2) as [H3 R23].
    split; [exact H3 | exact (R_trans _ _ _ R12 R23)].
  - intros fmt args g H. split; [exact H | apply R_printf].
  - intros msg g H. split; [exact H | apply R_perror].
  - intros g H. split; [exact H | apply R_led].
  - intros sig g H.
    split; [now apply flags_appended_timer_handler | now apply R_timer_handler].
  - intros seconds g H.
    split; [now apply flags_appended_process_time | apply R_process_time].
  - intros seconds g H.
    split; [now apply flags_appended_process_end_time
           | now apply R_process_end_time].
Qed.

End Lifting_flags.

Lemma reachable_flags_appended (m : monitor) :
  reachable m -> flags_appended (glob m).
Proof.
  induction 1 as [fs st env | m m' e Hr IH Hs].
  - unfold main_init, check_inuse_factory_reset.
    destruct (match st with Some e => e =? ENOENT | None => false end);
      destruct env; cbn [glob make_timer];
      first [ exists []; split; [reflexivity | discriminate]
            | exists [true]; split; [reflexivity | discriminate] ].
  - exact (proj1 (lift_step_flags (fun _ _ => True)
                    (fun _ => I) (fun _ _ _ _ _ => I) (fun _ _ _ => I)
                    (fun _ _ => I) (fun _ => I) (fun _ _ _ => I)
                    (fun _ _ => I) (fun _ _ _ => I) e m m' Hs IH)).
Qed.

(** ** The marker file at start-up *)




(** ** Press edges *)

Lemma press_sets_start (m : monitor) (ts : timespec) :
  handle_event PRESS (Some ts) m = Some (Next, mk_monitor (glob m) ts).
Proof. reflexivity. Qed.




(** ** Release edges and the start-time sentinel *)

Lemma release_dispatches_last (a : action) (m m' : monitor) :
  release_dispatches a m m' ->
  exists d,
    out (glob m') =
      (out (glob m) ++ d) ++ [System (str_sys_call_led LED_FLASH_GREEN)].
Proof.
  intros (g1 & Hp & Hg & _). rewrite Hg. unfold system, emit. cbn [out].
  destruct a; destruct Hp as [Hout _]; rewrite Hout; eexists; reflexivity.
Qed.

Lemma not_dispatched (m m' : monitor) (d : list effect) (fmt : string)
    (args : list Z) :
  out (glob m') = (out (glob m) ++ d) ++ [Printf fmt args] ->
  forall a, ~ release_dispatches a m m'.
Proof.
  intros Hout a Ha. destruct (release_dispatches_last a m m' Ha) as [d' Hd].
  rewrite Hout in Hd. apply app_inj_tail in Hd. destruct Hd as [_ Hd].
  discriminate.
Qed.

Lemma release_closed (m : monitor) (clk : clock) :
  start_is_set (timer_start m) = false ->
  handle_event RELEASE clk m =
    Some (Next,
          mk_monitor (printf ("Invalid Time" ++ nl) [] (glob m)) (timer_start m)).
Proof.
  intros Hset. unfold handle_event, RELEASE, test_time. cbn.
  now rewrite Hset.
Qed.

(** C7, as the code has it. A release edge with no start time set is
    reported as invalid and nothing else happens: one message is
    written, no command is run, the marker file, the mode and the
    start time stay as they are, and the loop goes on with the next
    event. A release edge with a start time set dispatches exactly one
    action whenever the clock is read at a later time than the press. *)
Theorem release_without_press :
  (forall (m : monitor) (clk : clock),
      start_is_set (timer_start m) = false ->
      let m' := mk_monitor (printf ("Invalid Time" ++ nl) [] (glob m))
                           (timer_start m) in
      handle_event RELEASE clk m = Some (Next, m') /\
      (forall rest, for_events ((RELEASE, clk) :: rest) m = for_events rest m') /\
      (forall clk2, step (Loop_pass (Read_events [(RELEASE, clk)]) clk2) m
                      = Some m') /\
      new_effects (glob m) (glob m') = [Printf ("Invalid Time" ++ nl) []] /\
      state (glob m') = state (glob m) /\
      fc_set (glob m') = fc_set (glob m) /\
      (forall a, ~ release_dispatches a m m')) /\
  (forall (m : monitor) (stop : timespec),
      start_is_set (timer_start m) = true ->
      clock_reading (timer_start m) -> clock_reading stop ->
      0 < elapsed (timer_start m) stop ->
      exists m' a,
        handle_event RELEASE (Some stop) m = Some (Next, m') /\
        release_dispatches a m m' /\
        forall b, release_dispatches b m m' -> b = a).
Proof.
  split; [| exact release_open_dispatches].
  intros m clk Hset m'. subst m'.
  split; [now apply release_closed |].
  split; [intros rest; cbn [for_events]; now rewrite release_closed |].
  split.
  { intros clk2. unfold step, loop_body. cbn [for_events].
    rewrite release_closed by exact Hset.
    unfold sample, test_time. cbn [timer_start glob]. now rewrite Hset. }
  split; [now apply new_effects_app |].
  split; [reflexivity |]. split; [reflexivity |].
  eapply (not_dispatched _ _ []). cbn. now rewrite app_nil_r.
Qed.

Lemma release_without_press_witness :
  let m := main_init true None Timer_ok in
  start_is_set (timer_start m) = false /\
  handle_event RELEASE (Some (mk_timespec 100 0)) m =
    Some (Next,
          mk_monitor (printf ("Invalid Time" ++ nl) [] (glob m)) (timer_start m)).
Proof.
  intros m. split; [reflexivity |].
  apply (proj1 release_without_press m (Some (mk_timespec 100 0))).
  reflexivity.
Defined.

(** C7, as the claim has it, fails in its last part: a release edge
    with the press open dispatches no action when [clock_gettime]
    fails (the failure is reported, the duration is taken as invalid
    and the press stays open), and none when the clock reads the very
    time of the press. *)
Lemma release_clock_failure_dispatches_nothing :
  let m := mk_monitor (glob (main_init true None Timer_ok)) (mk_timespec 100 0) in
  let m' := mk_monitor
              (printf ("Invalid Time" ++ nl) []
                 (perror "clock gettime" (glob m)))
              (timer_start m) in
  let m'' := mk_monitor (printf ("Invalid Time" ++ nl) [] (glob m))
                        (timer_start m) in
  handle_event PRESS (Some (mk_timespec 100 0)) (main_init true None Timer_ok)
    = Some (Next, m) /\
  start_is_set (timer_start m) = true /\
  handle_event RELEASE None m = Some (Next, m') /\
  (forall a, ~ release_dispatches a m m') /\
  handle_event RELEASE (Some (mk_timespec 100 0)) m = Some (Next, m'') /\
  (forall a, ~ release_dispatches a m m'').
Proof.
  cbv zeta. split; [reflexivity |]. split; [reflexivity |].
  split; [reflexivity |]. split; [| split; [reflexivity |]].
  - eapply (not_dispatched _ _ [Perror "clock gettime"]). cbn. reflexivity.
  - eapply (not_dispatched _ _ []). cbn. reflexivity.
Qed.

(** C10, as the code has it. The start time (0 s, 0 ns) means that no
    press is open: a press edge read at that time leaves the monitor
    as if there had been no press, the next release is invalid and
    dispatches nothing, and the sample does nothing. Every start time
    with a positive seconds or nanoseconds field passes the test of
    [test_time]; the sample and the release then see the press as open
    whenever the clock is read at a later time than the press, and the
    release puts the start time back to (0, 0). *)
Theorem start_time_sentinel :
  (forall (m : monitor) (clk : clock),
      let m1 := mk_monitor (glob m) timespec_zero in
      handle_event PRESS (Some timespec_zero) m = Some (Next, m1) /\
      start_is_set timespec_zero = false /\
      test_time timespec_zero clk (glob m) = (0, glob m) /\
      handle_event RELEASE clk m1 =
        Some (Next,
              mk_monitor (printf ("Invalid Time" ++ nl) [] (glob m))
                         timespec_zero) /\
      (forall a m', handle_event RELEASE clk m1 = Some (Next, m') ->
                    ~ release_dispatches a m1 m') /\
      sample clk m1 = Some m1) /\
  (forall ts : timespec,
      0 < tv_sec ts \/ 0 < tv_nsec ts -> start_is_set ts = true) /\
  (forall (m : monitor) (ts now : timespec),
      0 < tv_sec ts \/ 0 < tv_nsec ts ->
      clock_reading ts -> clock_reading now -> 0 < elapsed ts now ->
      let m1 := mk_monitor (glob m) ts in
      let seconds := elapsed ts now / 1000000000 in
      handle_event PRESS (Some ts) m = Some (Next, m1) /\
      test_time ts (Some now) (glob m) = (elapsed ts now, glob m) /\
      sample (Some now) m1 =
        Some (mk_monitor (process_time seconds (glob m)) ts) /\
      handle_event RELEASE (Some now) m1 =
        Some (Next,
              mk_monitor
                (system (str_sys_call_led LED_FLASH_GREEN)
                   (process_end_time seconds (glob m)))
                timespec_zero)).
Proof.
  assert (Hpos : forall ts : timespec,
             0 < tv_sec ts \/ 0 < tv_nsec ts -> start_is_set ts = true).
  { intros ts H. unfold start_is_set. apply orb_true_iff.
    destruct H; [left | right]; now apply Z.gtb_lt. }
  split; [| split; [exact Hpos |]].
  - intros m clk m1. subst m1.
    split; [reflexivity |]. split; [reflexivity |]. split; [reflexivity |].
    split; [now apply release_closed |]. split; [| reflexivity].
    intros a m'. rewrite release_closed by reflexivity. intros [= <-].
    eapply (not_dispatched _ _ []). cbn. now rewrite app_nil_r.
  - intros m ts now Hts Hr Hnow Hel m1 seconds. subst m1 seconds.
    split; [reflexivity |].
    split.
    { unfold test_time. rewrite (Hpos ts Hts).
      now rewrite (timespec_diff_nanoseconds _ _ Hr Hnow). }
    split.
    + now rewrite (sample_open (mk_monitor (glob m) ts) now (Hpos ts Hts) Hr Hnow Hel).
    + now rewrite (release_open (mk_monitor (glob m) ts) now (Hpos ts Hts) Hr Hnow Hel).
Qed.

Lemma start_time_sentinel_witness :
  let m := main_init true None Timer_ok in
  (0 < tv_sec (mk_timespec 100 0) \/ 0 < tv_nsec (mk_timespec 100 0)) /\
  0 < elapsed (mk_timespec 100 0) (mk_timespec 103 0) /\
  handle_event RELEASE (Some (mk_timespec 103 0))
      (mk_monitor (glob m) (mk_timespec 100 0)) =
    Some (Next,
          mk_monitor
            (system (str_sys_call_led LED_FLASH_GREEN)
               (process_end_time 3 (glob m)))
            timespec_zero).
Proof.
  intros m.
  assert (Hts : 0 < tv_sec (mk_timespec 100 0) \/ 0 < tv_nsec (mk_timespec 100 0))
    by (left; reflexivity).
  assert (Hel : 0 < elapsed (mk_timespec 100 0) (mk_timespec 103 0))
    by reflexivity.
  split; [exact Hts |]. split; [exact Hel |].
  destruct start_time_sentinel as (_ & _ & H).
  destruct (H m (mk_timespec 100 0) (mk_timespec 103 0) Hts) as (_ & _ & _ & Hr);
    [concrete_clock | concrete_clock | exact Hel | exact Hr].
Defined.

(** C10, as the claim has it, fails in its second part: after a press
    at 100 s, a release for which the clock again reads 100 s measures
    a duration of zero, which [main] takes for an invalid one: nothing
    is dispatched and the start time is not reset, although its
    seconds field is positive. *)
Lemma zero_duration_release_invalid :
  let m := main_init true None Timer_ok in
  let ts := mk_timespec 100 0 in
  let m1 := mk_monitor (glob m) ts in
  let m2 := mk_monitor (printf ("Invalid Time" ++ nl) [] (glob m)) ts in
  0 < tv_sec ts /\
  handle_event PRESS (Some ts) m = Some (Next, m1) /\
  handle_event RELEASE (Some ts) m1 = Some (Next, m2) /\
  timer_start m2 <> timespec_zero /\
  forall a, ~ release_dispatches a m1 m2.
Proof.
  cbv zeta. split; [reflexivity |]. split; [reflexivity |].
  split; [reflexivity |]. split; [discriminate |].
  eapply (not_dispatched _ _ []). cbn. reflexivity.
Qed.

(** ** The exact value of [test_time] against binary64

    At the durations next to each threshold, and at the smallest
    positive one, the binary64 value of [test_time] has the same whole
    seconds and the same zero test as the exact value of the model. *)
Lemma binary64_agrees_at_thresholds :
  Forall
    (fun d : timespec =>
       Binary64.to_ulong (Binary64.total_time d)
         = ulong_of_double (double_of_timespec d) /\
       Binary64.is_zero (Binary64.total_time d)
         = (double_of_timespec d =? 0))
    [mk_timespec 0 0; mk_timespec 0 1;
     mk_timespec 4 999000000; mk_timespec 4 999999999; mk_timespec 5 0;
     mk_timespec 9 999999999; mk_timespec 10 0;
     mk_timespec 14 999999999; mk_timespec 15 0].
Proof. repeat constructor. Qed.

(** Above 2^24 seconds binary64 rounds the last nanosecond up to the
    next second; both values are then far above the last threshold. *)
Lemma binary64_rounds_up_late :
  let d := mk_timespec 16777216 999999999 in
  Binary64.to_ulong (Binary64.total_time d) = Some 16777217 /\
  ulong_of_double (double_of_timespec d) = Some 16777216.
Proof. split; reflexivity. Qed.

(** * Further properties of pb_monitor.c *)

(** ** Time measurement *)

(** X1. For two readings of the clock whose seconds differ by less
    than 2^63, so that the subtraction of the seconds stays within
    [long], [timespec_diff] stores the difference in normal form,
    whichever reading is the later one: the seconds are a value of
    [long], the nanoseconds lie in [0, 10^9), the seconds are the floor
    of the difference in seconds and the nanoseconds its remainder. The
    detour of the borrow through [unsigned long] changes nothing. *)
Theorem timespec_diff_normal_form (start stop : timespec) :
  clock_reading start -> clock_reading stop ->
  - 2 ^ 63 < tv_sec stop - tv_sec start < 2 ^ 63 ->
  let d := timespec_diff start stop in
  - 2 ^ 63 <= tv_sec d < 2 ^ 63 /\
  0 <= tv_nsec d < 1000000000 /\
  tv_sec d = elapsed start stop / 1000000000 /\
  tv_nsec d = elapsed start stop mod 1000000000.
Proof.
  intros Hs Ht Hb d.
  assert (Hv := timespec_diff_nanoseconds start stop Hs Ht).
  fold d in Hv. unfold double_of_timespec in Hv.
  assert (Hr : - 2 ^ 63 <= tv_sec d < 2 ^ 63).
  { subst d. unfold timespec_diff.
    destruct (tv_nsec stop - tv_nsec start <? 0); cbn [tv_sec]; lia. }
  assert (Hn : 0 <= tv_nsec d < 1000000000).
  { destruct Hs as [_ Hs], Ht as [_ Ht]. subst d. unfold timespec_diff.
    destruct (Z.ltb_spec (tv_nsec stop - tv_nsec start) 0) as [Hlt | Hge];
      cbn [tv_nsec]; [| lia].
    unfold wrap_ulong, long_of_ulong.
    rewrite Z.add_mod_idemp_l by (cbv; discriminate).
    rewrite Z.mod_small by lia.
    destruct (Z.ltb_spec (tv_nsec stop - tv_nsec start + 1000000000) (2 ^ 63));
      lia. }
  split; [exact Hr |]. split; [exact Hn |]. split.
  - apply (Z.div_unique _ _ _ (tv_nsec d)); [left; exact Hn | lia].
  - apply (Z.mod_unique _ _ (tv_sec d)); [left; exact Hn | lia].
Qed.

Lemma timespec_diff_normal_form_witness :
  let start := mk_timespec 100 700000000 in
  let stop := mk_timespec 103 200000000 in
  clock_reading start /\ clock_reading stop /\
  - 2 ^ 63 < tv_sec stop - tv_sec start < 2 ^ 63 /\
  timespec_diff start stop = mk_timespec 2 500000000 /\
  tv_sec (timespec_diff start stop) = elapsed start stop / 1000000000.
Proof.
  intros start stop.
  assert (Hs : clock_reading start) by concrete_clock.
  assert (Ht : clock_reading stop) by concrete_clock.
  assert (Hb : - 2 ^ 63 < tv_sec stop - tv_sec start < 2 ^ 63)
    by (split; reflexivity).
  split; [exact Hs |]. split; [exact Ht |]. split; [exact Hb |].
  split; [reflexivity |].
  exact (proj1 (proj2 (proj2 (timespec_diff_normal_form start stop Hs Ht Hb)))).
Defined.

Lemma undispatched_refl (g : pb) : undispatched g g.
Proof.
  repeat split. exists []. now rewrite app_nil_r.
Qed.

Lemma undispatched_trans (g1 g2 g3 : pb) :
  undispatched g1 g2 -> undispatched g2 g3 -> undispatched g1 g3.
Proof.
  intros (Hs1 & Hb1 & Hf1 & d1 & Ho1 & Hd1) (Hs2 & Hb2 & Hf2 & d2 & Ho2 & Hd2).
  repeat split; try congruence.
  exists (d1 ++ d2). rewrite Ho2, Ho1, app_assoc, forallb_app, Hd1, Hd2.
  auto.
Qed.

Lemma undispatched_perror (msg : string) (g : pb) :
  undispatched g (perror msg g).
Proof. repeat split. now exists [Perror msg]. Qed.

Lemma undispatched_led (l : led_state) (g : pb) :
  undispatched g (system (str_sys_call_led l) g).
Proof.
  repeat split. exists [System (str_sys_call_led l)]. split; [reflexivity |].
  cbn. now rewrite led_of_cmd_led.
Qed.

(** X2. [test_time] answers a value other than 0 exactly when the start
    time has a positive field, the clock could be read, and the clock
    does not read the very time of the start. It answers 0 in the three
    other cases, which its callers cannot tell apart. It never touches
    the mode, the command buffer or the marker file, and writes at most
    the message of the failed clock read. *)
Theorem test_time_zero_cases (start : timespec) (clk : clock) (g : pb) :
  clock_reading start ->
  (forall stop, clk = Some stop -> clock_reading stop) ->
  (fst (test_time start clk g) <> 0 <->
   (0 < tv_sec start \/ 0 < tv_nsec start) /\
   exists stop, clk = Some stop /\ nanoseconds stop <> nanoseconds start) /\
  undispatched g (snd (test_time start clk g)) /\
  (new_effects g (snd (test_time start clk g)) = [Perror "clock gettime"] <->
   (0 < tv_sec start \/ 0 < tv_nsec start) /\ clk = None).
Proof.
  intros Hs Hclk.
  assert (Hset : start_is_set start = true <->
                 0 < tv_sec start \/ 0 < tv_nsec start).
  { unfold start_is_set. rewrite orb_true_iff, !Z.gtb_lt. reflexivity. }
  assert (Hnone : forall k : pb, new_effects k k = []).
  { intros k. apply new_effects_app. now rewrite app_nil_r. }
  unfold test_time. destruct (start_is_set start) eqn:E.
  - assert (Hp := proj1 Hset eq_refl). destruct clk as [stop |]; cbn [fst snd].
    + rewrite (timespec_diff_nanoseconds _ _ Hs (Hclk stop eq_refl)).
      unfold elapsed. split; [| split].
      * split.
        -- intros Hne. split; [exact Hp |].
           exists stop. split; [reflexivity | lia].
        -- intros (_ & stop' & [= <-] & Hne). lia.
      * apply undispatched_refl.
      * rewrite Hnone. split; [discriminate | intros [_ Hc]; discriminate].
    + split; [| split].
      * split; [intros H; now elim H |].
        intros (_ & stop & Hc & _). discriminate.
      * apply undispatched_perror.
      * split; [intros _; now split | intros _; now apply new_effects_app].
  - assert (Hn : ~ (0 < tv_sec start \/ 0 < tv_nsec start)).
    { intros H. apply Hset in H. discriminate. }
    cbn [fst snd]. split; [| split].
    + split; [intros H; now elim H | tauto].
    + apply undispatched_refl.
    + rewrite Hnone. split; [discriminate | tauto].
Qed.

Lemma test_time_zero_cases_witness :
  let start := mk_timespec 100 0 in
  let stop := mk_timespec 103 500000000 in
  let g := mk_pb PB_STATE_INUSE check_factory_reset_cmd false [] in
  clock_reading start /\ clock_reading stop /\
  fst (test_time start (Some stop) g) <> 0.
Proof.
  intros start stop g.
  assert (Hs : clock_reading start) by concrete_clock.
  assert (Ht : clock_reading stop) by concrete_clock.
  split; [exact Hs |]. split; [exact Ht |].
  apply (proj2 (proj1 (test_time_zero_cases start (Some stop) g Hs
                         (fun t H => eq_ind stop clock_reading Ht t
                                       (f_equal (fun c => match c with
                                                          | Some x => x
                                                          | None => stop
                                                          end) H))))).
  split; [left; reflexivity |].
  exists stop. split; [reflexivity | discriminate].
Defined.

(** ** Start-up *)

(** X3. Only the answer "no such file" of [stat] counts as an absent
    marker. When [stat] fails for any other reason the start-up check
    goes the way of a marker that is present: it calls [remove], runs
    the factory-reset script with the flag 1 and starts in mode INUSE. *)
Theorem stat_failure_counts_as_marker (e : Z) (g : pb) (fs : bool)
    (env : timer_env) :
  e <> ENOENT ->
  check_inuse_factory_reset (Some e) g = check_inuse_factory_reset None g /\
  main_init fs (Some e) env = main_init fs None env /\
  state (glob (main_init fs (Some e) env)) = PB_STATE_INUSE /\
  system_actions (out (glob (main_init fs (Some e) env))) = [factoryReset true] /\
  In (Remove FACTORY_RESET_FILE) (out (glob (main_init fs (Some e) env))).
Proof.
  intros He.
  assert (Hc : forall k, check_inuse_factory_reset (Some e) k
                         = check_inuse_factory_reset None k).
  { intros k. unfold check_inuse_factory_reset.
    destruct (Z.eqb_spec e ENOENT); [contradiction | reflexivity]. }
  assert (Hm : main_init fs (Some e) env = main_init fs None env).
  { unfold main_init. now rewrite Hc. }
  split; [apply Hc |]. split; [exact Hm |]. rewrite Hm.
  destruct env; vm_compute; auto 10.
Qed.

Lemma stat_failure_counts_as_marker_witness :
  13 <> ENOENT /\
  state (glob (main_init false (Some 13) Timer_ok)) = PB_STATE_INUSE.
Proof.
  assert (H : 13 <> ENOENT) by discriminate.
  split; [exact H |].
  exact (proj1 (proj2 (proj2
           (stat_failure_counts_as_marker 13
              (mk_pb PB_STATE_START check_factory_reset_cmd false [])
              false Timer_ok H)))).
Defined.

(** X4. [make_timer] arms the timer only when [sigaction],
    [timer_create] and [timer_settime] all succeed. It returns -1 when
    one of the first two fails and 0 otherwise, also when
    [timer_settime] fails; every failure is reported. [main] goes on
    whatever the result: the mode, the command buffer, the marker file
    and the start time after the start-up are those of a start with a
    working timer. *)
Theorem make_timer_failures (env : timer_env) (name : string)
    (expireS intervalS : Z) (g : pb) :
  let r := make_timer env name expireS intervalS g in
  (fst r = -1 <-> env = Sigaction_fails \/ env = Timer_create_fails) /\
  (fst r <> -1 -> fst r = 0) /\
  (In (Timer_settime expireS intervalS) (new_effects g (snd r))
   <-> env = Timer_ok) /\
  (env <> Timer_ok -> exists msg, In (Perror msg) (new_effects g (snd r))) /\
  state (snd r) = state g /\
  str_sys_call_check_factory_reset (snd r) = str_sys_call_check_factory_reset g /\
  fc_set (snd r) = fc_set g /\
  (forall (fs : bool) (stat_errno : option Z),
      let m := main_init fs stat_errno env in
      let m0 := main_init fs stat_errno Timer_ok in
      state (glob m) = state (glob m0) /\
      str_sys_call_check_factory_reset (glob m) =
        str_sys_call_check_factory_reset (glob m0) /\
      fc_set (glob m) = fc_set (glob m0) /\
      timer_start m = timer_start m0 /\
      (In (Timer_settime TIMER1_EXPIRE TIMER1_INTERVAL) (out (glob m)) \/
       In (Timer_settime TIMER1_INTERVAL TIMER1_INTERVAL) (out (glob m))
       <-> env = Timer_ok)).
Proof.
  intros r. subst r.
  split; [| split; [| split; [| split; [| split; [| split; [| split]]]]]].
  - destruct env; cbn; split; intros H; try discriminate; auto;
      destruct H; discriminate.
  - destruct env; cbn; intros H; try reflexivity; now elim H.
  - destruct env; unfold make_timer; cbn [snd]; exec;
      rewrite new_effects_mk_pb; cbn; split; intros H;
      try discriminate; auto; intuition discriminate.
  - intros Hne. destruct env; [now elim Hne | | |];
      unfold make_timer; cbn [snd]; exec;
      rewrite new_effects_mk_pb; eexists; left; reflexivity.
  - now destruct env.
  - now destruct env.
  - now destruct env.
  - intros fs st m m0. subst m m0. unfold main_init.
    destruct (check_inuse_factory_reset st _) as [ts g2] eqn:Hc.
    assert (Hts : ts = TIMER1_EXPIRE \/ ts = TIMER1_INTERVAL).
    { unfold check_inuse_factory_reset in Hc.
      destruct (match st with Some e => e =? ENOENT | None => false end);
        injection Hc as <- _; auto. }
    assert (Hno : forall a b, ~ In (Timer_settime a b) (out g2)).
    { unfold check_inuse_factory_reset in Hc.
      destruct (match st with Some e => e =? ENOENT | None => false end);
        injection Hc as _ <-; intros a b; vm_compute; intuition discriminate. }
    destruct env; cbn [make_timer glob timer_start];
      (split; [reflexivity |]); (split; [reflexivity |]);
      (split; [reflexivity |]); (split; [reflexivity |]).
    + split; [reflexivity |]. intros _.
      exec. destruct Hts as [-> | ->]; [left | right];
        apply in_or_app; right; left; reflexivity.
    + exec. split; [| discriminate].
      intros [H | H]; apply in_app_or in H; destruct H as [H | H];
        try (now apply Hno in H); cbn in H; intuition discriminate.
    + exec. split; [| discriminate].
      intros [H | H]; apply in_app_or in H; destruct H as [H | H];
        try (now apply Hno in H); cbn in H; intuition discriminate.
    + exec. split; [| discriminate].
      intros [H | H]; apply in_app_or in H; destruct H as [H | H];
        try (now apply Hno in H); cbn in H; intuition discriminate.
Qed.

Lemma make_timer_failures_witness :
  let g := mk_pb PB_STATE_START check_factory_reset_cmd false [] in
  Settime_fails 22 <> Timer_ok /\
  fst (make_timer (Settime_fails 22) "Timer1" 10 2 g) = 0 /\
  exists msg,
    In (Perror msg)
       (new_effects g (snd (make_timer (Settime_fails 22) "Timer1" 10 2 g))).
Proof.
  intros g.
  assert (H : Settime_fails 22 <> Timer_ok) by discriminate.
  split; [exact H |]. split; [reflexivity |].
  exact (proj1 (proj2 (proj2 (proj2
           (make_timer_failures (Settime_fails 22) "Timer1" 10 2 g)))) H).
Defined.

(** ** The events of a pass *)

Lemma handle_event_not_edge (ev : input_event) (clk : clock) (m : monitor) :
  is_edge ev = false -> handle_event ev clk m = Some (Next, m).
Proof.
  unfold is_edge, handle_event. intros H.
  destruct (ev_type ev =? EV_KEY); [| reflexivity].
  destruct (ev_code ev =? 256); [| reflexivity].
  cbn in H. apply orb_false_iff in H. destruct H as [-> ->]. reflexivity.
Qed.

(** X5. Of a batch of events only the press and release edges of key
    256 count. Events of another type or another key, and key events
    with another value (the auto-repeat), change nothing and consume
    no clock reading: the batch behaves as the batch of its edges. *)
Theorem for_events_edges_only (evs : list (input_event * clock))
    (m : monitor) :
  for_events evs m = for_events (filter (fun p => is_edge (fst p)) evs) m.
Proof.
  revert m. induction evs as [| [ev clk] rest IH]; intros m; [reflexivity |].
  cbn [filter fst]. destruct (is_edge ev) eqn:E.
  - cbn [for_events]. destruct (handle_event ev clk m) as [[[|] m1] |];
      [apply IH | reflexivity | reflexivity].
  - cbn [for_events]. rewrite (handle_event_not_edge _ _ _ E). apply IH.
Qed.

(** X6. When [clock_gettime] fails on a press edge, the failure is
    reported, the start time keeps its value, and the [break] drops
    the rest of the batch: the events that [read] returned after the
    press, a release among them, are never handled. *)
Theorem press_clock_failure_drops_batch (rest : list (input_event * clock))
    (m : monitor) :
  for_events ((PRESS, None) :: rest) m =
    Some (mk_monitor (perror "clock gettime" (glob m)) (timer_start m)) /\
  for_events ((PRESS, None) :: rest) m = for_events [(PRESS, None)] m /\
  (forall clk, start_is_set (timer_start m) = false ->
     step (Loop_pass (Read_events ((PRESS, None) :: rest)) clk) m =
       Some (mk_monitor (perror "clock gettime" (glob m)) (timer_start m))).
Proof.
  split; [reflexivity |]. split; [reflexivity |].
  intros clk Hset. unfold step, loop_body. cbn [for_events handle_event].
  cbn. unfold sample, test_time. cbn [timer_start glob]. now rewrite Hset.
Qed.

Lemma press_clock_failure_drops_batch_witness :
  let m := main_init true None Timer_ok in
  start_is_set (timer_start m) = false /\
  step (Loop_pass
          (Read_events [(PRESS, None); (RELEASE, Some (mk_timespec 107 0))])
          (Some (mk_timespec 107 1000))) m =
    Some (mk_monitor (perror "clock gettime" (glob m)) (timer_start m)).
Proof.
  intros m. split; [reflexivity |].
  exact (proj2 (proj2 (press_clock_failure_drops_batch
                         [(RELEASE, Some (mk_timespec 107 0))] m))
           (Some (mk_timespec 107 1000)) eq_refl).
Defined.

(** X7. When the clock is set back between press and release, the
    duration is negative. Less than a second back, its integral part
    is 0 and the release is dispatched as a press of 0 s; a second or
    more back, the conversion of the duration to [unsigned long] is
    undefined, for the release and for the sample alike. *)
Theorem clock_set_back (m : monitor) (stop : timespec) :
  start_is_set (timer_start m) = true ->
  clock_reading (timer_start m) -> clock_reading stop ->
  (- 1000000000 < elapsed (timer_start m) stop < 0 ->
   handle_event RELEASE (Some stop) m =
     Some (Next,
           mk_monitor
             (system (str_sys_call_led LED_FLASH_GREEN)
                (process_end_time 0 (glob m)))
             timespec_zero) /\
   sample (Some stop) m =
     Some (mk_monitor (process_time 0 (glob m)) (timer_start m))) /\
  (elapsed (timer_start m) stop <= - 1000000000 ->
   handle_event RELEASE (Some stop) m = None /\
   sample (Some stop) m = None).
Proof.
  intros Hset Hstart Hstop. split; intros Hel.
  - assert (Hq : ulong_of_double (elapsed (timer_start m) stop) = Some 0).
    { unfold ulong_of_double.
      replace (elapsed (timer_start m) stop ÷ 1000000000) with 0;
        [reflexivity |].
      symmetry. rewrite <- (Z.opp_involutive (elapsed (timer_start m) stop)).
      rewrite Z.quot_opp_l by lia.
      rewrite Z.quot_small by lia. reflexivity. }
    unfold handle_event, sample, RELEASE, test_time. cbn.
    rewrite Hset, (timespec_diff_nanoseconds _ _ Hstart Hstop).
    destruct (Z.eqb_spec (elapsed (timer_start m) stop) 0) as [H0 | _]; [lia |].
    cbn. now rewrite Hq.
  - assert (Hq : ulong_of_double (elapsed (timer_start m) stop) = None).
    { unfold ulong_of_double.
      assert (elapsed (timer_start m) stop ÷ 1000000000 <= -1).
      { rewrite <- (Z.opp_involutive (elapsed (timer_start m) stop)).
        rewrite Z.quot_opp_l by lia.
        assert (1 <= (- elapsed (timer_start m) stop) ÷ 1000000000); [| lia].
        rewrite Z.quot_div_nonneg by lia.
        apply Z.div_le_lower_bound; lia. }
      cbv zeta.
      destruct (Z.leb_spec 0 (elapsed (timer_start m) stop ÷ 1000000000));
        [lia | reflexivity]. }
    unfold handle_event, sample, RELEASE, test_time. cbn.
    rewrite Hset, (timespec_diff_nanoseconds _ _ Hstart Hstop).
    destruct (Z.eqb_spec (elapsed (timer_start m) stop) 0) as [H0 | _]; [lia |].
    cbn. now rewrite Hq.
Qed.

Lemma clock_set_back_witness :
  let m := mk_monitor (glob (main_init true None Timer_ok))
                      (mk_timespec 100 0) in
  elapsed (timer_start m) (mk_timespec 98 0) <= - 1000000000 /\
  handle_event RELEASE (Some (mk_timespec 98 0)) m = None.
Proof.
  intros m.
  assert (Hel : elapsed (timer_start m) (mk_timespec 98 0) <= - 1000000000)
    by (intros H; discriminate H).
  split; [exact Hel |].
  refine (proj1 (proj2 (clock_set_back m (mk_timespec 98 0) eq_refl _ _) Hel));
    concrete_clock.
Defined.

(** ** What happens without a release *)

Lemma feedback_only_no_system_action (d : list effect) :
  forallb feedback_only d = true -> system_actions d = [].
Proof.
  induction d as [| e d IH]; [reflexivity |]. cbn [forallb].
  intros H. apply andb_true_iff in H. destruct H as [He Hd].
  destruct e as [| | c | | |]; try discriminate; try exact (IH Hd).
  unfold system_actions. cbn [commands filter].
  assert (Hc : is_system_action c = false).
  { cbn in He. unfold led_of_cmd in He.
    repeat match type of He with
    | context [String.eqb c ?s] =>
        destruct (String.eqb_spec c s) as [-> | _]; [reflexivity |]
    end.
    discriminate. }
  rewrite Hc. exact (IH Hd).
Qed.

Lemma test_time_undispatched (start : timespec) (clk : clock) (g : pb) :
  undispatched g (snd (test_time start clk g)).
Proof.
  unfold test_time. destruct (start_is_set start); [| apply undispatched_refl].
  destruct clk; [apply undispatched_refl | apply undispatched_perror].
Qed.

Lemma process_time_undispatched (seconds : Z) (g : pb) :
  undispatched g (process_time seconds g).
Proof.
  unfold process_time. destruct (state g); [apply undispatched_refl |].
  band_cases seconds;
    first [apply undispatched_led | apply undispatched_refl].
Qed.

Lemma sample_undispatched (clk : clock) (m m' : monitor) :
  sample clk m = Some m' ->
  undispatched (glob m) (glob m') /\ timer_start m' = timer_start m.
Proof.
  unfold sample.
  assert (Ht := test_time_undispatched (timer_start m) clk (glob m)).
  destruct (test_time (timer_start m) clk (glob m)) as [t g1]. cbn in Ht.
  destruct (negb (t =? 0)).
  - destruct (ulong_of_double t) as [seconds |]; [| discriminate].
    intros [= <-]. split; [| reflexivity]. cbn [glob].
    eapply undispatched_trans; [exact Ht | apply process_time_undispatched].
  - intros [= <-]. split; [exact Ht | reflexivity].
Qed.

Lemma handle_event_no_release (ev : input_event) (clk : clock)
    (m m' : monitor) (f : flow) :
  is_release ev = false -> handle_event ev clk m = Some (f, m') ->
  undispatched (glob m) (glob m').
Proof.
  unfold is_release, handle_event. intros Hr.
  destruct (ev_type ev =? EV_KEY); cbn [negb];
    [| intros [= _ <-]; apply undispatched_refl].
  destruct (ev_code ev =? 256);
    [| intros [= _ <-]; apply undispatched_refl].
  cbn in Hr. rewrite Hr.
  destruct (ev_value ev =? 1);
    [| intros [= _ <-]; apply undispatched_refl].
  destruct clk; intros [= _ <-];
    [apply undispatched_refl | apply undispatched_perror].
Qed.

Lemma for_events_no_release (evs : list (input_event * clock))
    (m m' : monitor) :
  forallb (fun p => negb (is_release (fst p))) evs = true ->
  for_events evs m = Some m' -> undispatched (glob m) (glob m').
Proof.
  revert m. induction evs as [| [ev clk] rest IH]; intros m; cbn.
  - intros _ [= <-]. apply undispatched_refl.
  - intros H. apply andb_true_iff in H. destruct H as [Hev Hrest].
    apply negb_true_iff in Hev.
    destruct (handle_event ev clk m) as [[[|] m1] |] eqn:He; [| | discriminate].
    + intros H. eapply undispatched_trans;
        [exact (handle_event_no_release _ _ _ _ _ Hev He) | exact (IH _ Hrest H)].
    + intros [= <-]. exact (handle_event_no_release _ _ _ _ _ Hev He).
Qed.

(** X8. Nothing is dispatched without a release edge. A pass of the
    loop whose [read] fails or returns no release of key 256 (press
    edges, other events, nothing at all), with its sample, leaves the
    mode, the command buffer and the marker file as they are and
    issues nothing but error messages and LED commands: no reboot, no
    shutdown, no run of the factory-reset script. *)
Theorem no_release_no_action (rd : read_result) (clk : clock)
    (m m' : monitor) :
  no_release rd = true ->
  step (Loop_pass rd clk) m = Some m' ->
  undispatched (glob m) (glob m') /\
  system_actions (new_effects (glob m) (glob m')) = [].
Proof.
  intros Hrd Hs.
  assert (Hu : undispatched (glob m) (glob m')).
  { unfold step, loop_body in Hs. destruct rd as [eintr | evs].
    - apply sample_undispatched in Hs. destruct Hs as [Hs _].
      destruct eintr; [exact Hs |].
      eapply undispatched_trans; [apply undispatched_perror | exact Hs].
    - destruct (for_events evs m) as [m1 |] eqn:Hf; [| discriminate].
      eapply undispatched_trans;
        [exact (for_events_no_release _ _ _ Hrd Hf)
        | exact (proj1 (sample_undispatched _ _ _ Hs))]. }
  split; [exact Hu |].
  destruct Hu as (_ & _ & _ & d & Ho & Hd).
  rewrite (new_effects_app _ _ _ Ho).
  now apply feedback_only_no_system_action.
Qed.

Lemma no_release_no_action_witness :
  let m := main_init true None Timer_ok in
  let rd := Read_events [(PRESS, Some (mk_timespec 100 0))] in
  exists m',
    step (Loop_pass rd (Some (mk_timespec 112 0))) m = Some m' /\
    system_actions (new_effects (glob m) (glob m')) = [].
Proof.
  intros m rd. eexists. split; [vm_compute; reflexivity |].
  exact (proj2 (no_release_no_action rd (Some (mk_timespec 112 0)) m _
                  eq_refl eq_refl)).
Defined.

(** ** Repeated ticks *)

(** X9. The timer handler acts once. Whatever the mode, a second timer
    signal after a first one changes nothing: the periodic ticks that
    follow the expiry of the grace period neither run the script again
    nor lengthen its command line. *)
Theorem timer_handler_idempotent (sig1 sig2 : Z) (g : pb) :
  timer_handler sig2 (timer_handler sig1 g) = timer_handler sig1 g /\
  state (timer_handler sig1 g) = PB_STATE_INUSE.
Proof.
  destruct (state g) eqn:Hst.
  - rewrite (timer_handler_start sig1 g Hst).
    split; [now apply timer_handler_inuse | reflexivity].
  - rewrite (timer_handler_inuse sig1 g Hst).
    split; [now apply timer_handler_inuse | exact Hst].
Qed.

(** X10. [process_time] only signals: it leaves the mode, the command
    buffer and the marker file as they are and issues at most one LED
    command. Calling it again with the same seconds leaves the LED in
    the same state, so a repeated or a missed sample does no harm. *)
Theorem process_time_idempotent (seconds : Z) (g : pb) :
  undispatched g (process_time seconds g) /\
  (List.length (new_effects g (process_time seconds g)) <= 1)%nat /\
  led_after (out (process_time seconds (process_time seconds g))) =
    led_after (out (process_time seconds g)).
Proof.
  split; [apply process_time_undispatched |].
  assert (Hnone : new_effects g g = []).
  { apply new_effects_app. now rewrite app_nil_r. }
  assert (Hone : forall c, new_effects g (system c g) = [System c]).
  { intros c. now apply new_effects_app. }
  destruct (state g) eqn:Hst.
  - rewrite !(process_time_start seconds g Hst), Hnone.
    split; [cbn; lia | reflexivity].
  - assert (Hst' : forall c, state (system c g) = PB_STATE_INUSE)
      by (intros c; exact Hst).
    destruct (process_time_inuse seconds g Hst) as (H15 & H10 & H5 & H0).
    band_cases seconds.
    + rewrite (H15 ltac:(lia)), Hone. split; [cbn; lia |].
      rewrite (proj1 (process_time_inuse seconds _ (Hst' _)) ltac:(lia)).
      cbn [out system emit]. now rewrite !led_after_led.
    + rewrite (H10 ltac:(lia)), Hone. split; [cbn; lia |].
      rewrite (proj1 (proj2 (process_time_inuse seconds _ (Hst' _)))
                 ltac:(lia)).
      cbn [out system emit]. now rewrite !led_after_led.
    + rewrite (H5 ltac:(lia)), Hone. split; [cbn; lia |].
      rewrite (proj1 (proj2 (proj2 (process_time_inuse seconds _ (Hst' _))))
                 ltac:(lia)).
      cbn [out system emit]. now rewrite !led_after_led.
    + rewrite !(H0 ltac:(lia)), Hnone. split; [cbn; lia | reflexivity].
Qed.

(** ** The marker file while the monitor runs *)

Lemma keeps_marker_intro (g g' : pb) (d : list effect) :
  out g' = out g ++ d ->
  (forall path, ~ In (Remove path) d) ->
  fc_set g' = fc_set g \/ (fc_set g' = true /\ In (Fopen_w FACTORY_RESET_FILE) d) ->
  keeps_marker g g'.
Proof.
  intros Ho Hr Hf. split.
  - intros Ht. destruct Hf as [-> | [-> _]]; auto.
  - exists d. split; [exact Ho |]. split; [exact Hr |].
    intros Hne. destruct Hf as [Hf | [_ Hf]]; [contradiction | exact Hf].
Qed.

Lemma keeps_marker_refl (g : pb) : keeps_marker g g.
Proof.
  apply (keeps_marker_intro g g []); [now rewrite app_nil_r | auto | auto].
Qed.

Lemma keeps_marker_trans (g1 g2 g3 : pb) :
  keeps_marker g1 g2 -> keeps_marker g2 g3 -> keeps_marker g1 g3.
Proof.
  intros (Ht1 & d1 & Ho1 & Hr1 & Hc1) (Ht2 & d2 & Ho2 & Hr2 & Hc2).
  split; [auto |]. exists (d1 ++ d2).
  split; [now rewrite Ho2, Ho1, app_assoc |]. split.
  - intros path H. apply in_app_or in H. destruct H as [H | H];
      [exact (Hr1 _ H) | exact (Hr2 _ H)].
  - intros Hne. apply in_or_app.
    destruct (Bool.bool_dec (fc_set g2) (fc_set g1)) as [E | E].
    + right. apply Hc2. congruence.
    + left. exact (Hc1 E).
Qed.

Lemma undispatched_keeps_marker (g g' : pb) :
  undispatched g g' -> keeps_marker g g'.
Proof.
  intros (_ & _ & Hf & d & Ho & Hd).
  apply (keeps_marker_intro g g' d Ho); [| now left].
  intros path Hin. rewrite forallb_forall in Hd.
  specialize (Hd _ Hin). discriminate.
Qed.

Ltac no_remove :=
  let path := fresh in let H := fresh in
  intros path H; cbn in H; intuition discriminate.

Lemma keeps_marker_timer_handler (sig : Z) (g : pb) :
  keeps_marker g (timer_handler sig g).
Proof.
  destruct (state g) eqn:Hst.
  - rewrite (timer_handler_start sig g Hst).
    eapply keeps_marker_intro; [reflexivity | no_remove | now left].
  - rewrite (timer_handler_inuse sig g Hst). apply keeps_marker_refl.
Qed.

Lemma keeps_marker_process_end_time (seconds : Z) (g : pb) :
  keeps_marker g (process_end_time seconds g).
Proof.
  unfold process_end_time.
  band_cases seconds; [| | | destruct (state g) eqn:Hst]; exec;
    (eapply keeps_marker_intro;
     [reflexivity | no_remove
     | first [left; reflexivity | right; split; [reflexivity | cbn; auto]]]).
Qed.

Lemma keeps_marker_run (es : list event) (m m' : monitor) :
  run es m = Some m' -> keeps_marker (glob m) (glob m').
Proof.
  apply (lift_run keeps_marker keeps_marker_refl keeps_marker_trans); intros.
  - eapply keeps_marker_intro; [reflexivity | no_remove | now left].
  - eapply keeps_marker_intro; [reflexivity | no_remove | now left].
  - apply undispatched_keeps_marker, undispatched_led.
  - apply keeps_marker_timer_handler.
  - apply undispatched_keeps_marker, process_time_undispatched.
  - apply keeps_marker_process_end_time.
Qed.

(** X11. The running monitor never removes the marker file: [remove]
    is called at start-up only. Over any sequence of timer signals and
    passes of the loop, a marker that exists still exists afterwards,
    and a marker that did not exist exists afterwards only if [fopen]
    created it, which a release of 5 s to 9 s does. *)
Theorem marker_survives_run (es : list event) (m m' : monitor) :
  run es m = Some m' ->
  (fc_set (glob m) = true -> fc_set (glob m') = true) /\
  (forall path, ~ In (Remove path) (new_effects (glob m) (glob m'))) /\
  (fc_set (glob m') <> fc_set (glob m) ->
   fc_set (glob m') = true /\
   In (Fopen_w FACTORY_RESET_FILE) (new_effects (glob m) (glob m'))).
Proof.
  intros H. destruct (keeps_marker_run es m m' H) as (Ht & d & Ho & Hr & Hc).
  rewrite (new_effects_app _ _ _ Ho).
  split; [exact Ht |]. split; [exact Hr |].
  intros Hne. split; [| exact (Hc Hne)].
  destruct (fc_set (glob m')) eqn:E; [reflexivity |].
  destruct (fc_set (glob m)) eqn:E'; [| now elim Hne].
  specialize (Ht eq_refl). discriminate.
Qed.

Lemma marker_survives_run_witness :
  let m := main_init false (Some ENOENT) Timer_ok in
  let es := [Loop_pass (Read_events [(PRESS, Some (mk_timespec 100 0))])
               (Some (mk_timespec 100 1000));
             Loop_pass (Read_events [(RELEASE, Some (mk_timespec 107 0))])
               (Some (mk_timespec 107 1000));
             Timer_signal 34] in
  exists m',
    run es m = Some m' /\
    fc_set (glob m') <> fc_set (glob m) /\
    In (Fopen_w FACTORY_RESET_FILE) (new_effects (glob m) (glob m')).
Proof.
  intros m es. eexists. split; [vm_compute; reflexivity |].
  assert (Hne : true <> fc_set (glob m)) by discriminate.
  split; [exact Hne |].
  exact (proj2 (proj2 (proj2 (marker_survives_run es m _ eq_refl)) Hne)).
Defined.

(** ** The factory-reset script in an execution *)

Lemma runs_script_quiet (g g' : pb) (d : list effect) :
  evolves g g' -> out g' = out g ++ d -> state g' = state g ->
  str_sys_call_check_factory_reset g' = str_sys_call_check_factory_reset g ->
  factory_reset_calls d = [] ->
  runs_script g g'.
Proof.
  intros He Ho Hs Hb Hd. split; [exact He |]. exists d.
  split; [exact Ho |]. split; [auto |]. split; [auto |].
  intros H1 H2. congruence.
Qed.

Lemma runs_script_refl (g : pb) : runs_script g g.
Proof.
  apply (runs_script_quiet g g []); auto using evolves_refl.
  now rewrite app_nil_r.
Qed.

Lemma runs_script_trans (g1 g2 g3 : pb) :
  runs_script g1 g2 -> runs_script g2 g3 -> runs_script g1 g3.
Proof.
  intros (He1 & d1 & Ho1 & Hi1 & Hs1 & Hc1) (He2 & d2 & Ho2 & Hi2 & Hs2 & Hc2).
  split; [exact (evolves_trans _ _ _ He1 He2) |].
  exists (d1 ++ d2). rewrite factory_reset_calls_app.
  split; [now rewrite Ho2, Ho1, app_assoc |].
  destruct (state g2) eqn:E2.
  - (* the mode is still START in the middle *)
    rewrite (Hs1 eq_refl). cbn [app].
    assert (Hb : str_sys_call_check_factory_reset g2
                 = str_sys_call_check_factory_reset g1)
      by exact (proj1 (proj2 He1) E2).
    split; [| split].
    + intros H1. rewrite (proj1 He1 H1) in E2. discriminate.
    + exact Hs2.
    + intros _ H3. destruct (Hc2 eq_refl H3) as (flag & Hbuf & Hd).
      exists flag. now rewrite <- Hb.
  - (* the mode is INUSE in the middle *)
    destruct (Hi2 eq_refl) as [Hd2 Hb2]. rewrite Hd2, app_nil_r.
    assert (E3 : state g3 = PB_STATE_INUSE) by exact (proj1 He2 E2).
    split; [| split].
    + intros H1. destruct (Hi1 H1) as [Hd1 Hb1]. split; congruence.
    + intros H3. congruence.
    + intros H1 _. destruct (Hc1 H1 eq_refl) as (flag & Hbuf & Hd).
      exists flag. now rewrite Hb2.
Qed.

Lemma runs_script_timer_handler (sig : Z) (g : pb) :
  runs_script g (timer_handler sig g).
Proof.
  split; [apply evolves_timer_handler |].
  destruct (state g) eqn:Hst.
  - rewrite (timer_handler_start sig g Hst). eexists.
    split; [reflexivity |]. split; [discriminate |]. split; [discriminate |].
    intros _ _. exists false. split; reflexivity.
  - rewrite (timer_handler_inuse sig g Hst). exists [].
    rewrite app_nil_r. repeat split; auto. congruence.
Qed.

Lemma runs_script_process_end_time (seconds : Z) (g : pb) :
  flags_appended g -> runs_script g (process_end_time seconds g).
Proof.
  intros Hf.
  split; [apply evolves_process_end_time |].
  unfold process_end_time.
  band_cases seconds; [| | | destruct (state g) eqn:Hst]; exec; eexists;
    (split; [reflexivity |]).
  - repeat split; auto. cbn. congruence.
  - repeat split; auto. cbn. congruence.
  - repeat split; auto. cbn. congruence.
  - split; [discriminate |]. split; [discriminate |].
    intros _ _. exists true. split; [reflexivity |].
    unfold factory_reset_calls. cbn [commands filter].
    change (String.prefix check_factory_reset_cmd
              (str_sys_call_led LED_FLASH_GREEN)) with false.
    reflexivity.
  - assert (Hq : factory_reset_calls
                   [Printf MSG_REBOOT []; System (str_sys_call_reboot g)] = []).
    { unfold factory_reset_calls. cbn [commands filter].
      now rewrite (reboot_no_script g Hf). }
    split; [intros _; split; [exact Hq | reflexivity] |].
    split; [intros _; exact Hq | congruence].
Qed.

Lemma no_system_action_no_call (d : list effect) :
  system_actions d = [] -> factory_reset_calls d = [].
Proof.
  unfold system_actions, factory_reset_calls, check_factory_reset_cmd.
  induction (commands d) as [| c cs IH]; [reflexivity |].
  cbn [filter]. unfold is_system_action at 1.
  destruct (String.prefix "/usr/local/bin/check-factory-reset.sh " c).
  - rewrite !orb_true_r. discriminate.
  - destruct (_ || _ || false); [discriminate | exact IH].
Qed.

Lemma runs_script_step (e : event) (m m' : monitor) :
  step e m = Some m' -> flags_appended (glob m) ->
  runs_script (glob m) (glob m').
Proof.
  intros Hs Hf.
  refine (proj2 (lift_step_flags runs_script runs_script_refl runs_script_trans
                   _ _ _ _ _ _ e m m' Hs Hf)); intros.
  - eapply runs_script_quiet; try reflexivity. apply evolves_emit.
  - eapply runs_script_quiet; try reflexivity. apply evolves_emit.
  - eapply runs_script_quiet; try reflexivity. apply evolves_emit.
  - apply runs_script_timer_handler.
  - destruct (process_time_undispatched seconds g) as (Hs' & Hb & _ & d & Ho & Hd).
    apply (runs_script_quiet _ _ d);
      [apply evolves_process_time | exact Ho | exact Hs' | exact Hb |].
    now apply no_system_action_no_call, feedback_only_no_system_action.
  - now apply runs_script_process_end_time.
Qed.

Lemma reachable_run (es : list event) (m m' : monitor) :
  reachable m -> run es m = Some m' -> reachable m'.
Proof.
  revert m. induction es as [| e rest IH]; intros m H; cbn.
  - now intros [= <-].
  - destruct (step e m) as [m1 |] eqn:Hs; [| discriminate].
    apply IH. exact (reachable_step _ _ _ H Hs).
Qed.

(** X12. In every execution the factory-reset script is run exactly
    once, at the moment the mode becomes INUSE. While the mode is START
    the script has not been run and the command buffer has its initial
    content; once the mode is INUSE the script has been run once, with
    one flag (0 from the timer handler, 1 from the start-up check or
    the short press), and the buffer holds that command line from then
    on: no second flag is ever appended. *)
Theorem script_runs_once (m : monitor) :
  reachable m ->
  match state (glob m) with
  | PB_STATE_START =>
      factory_reset_calls (out (glob m)) = [] /\
      str_sys_call_check_factory_reset (glob m) = check_factory_reset_cmd
  | PB_STATE_INUSE =>
      exists flag,
        factory_reset_calls (out (glob m)) = [factoryReset flag] /\
        str_sys_call_check_factory_reset (glob m) = factoryReset flag
  end.
Proof.
  induction 1 as [fs st env | m m' e Hr IH Hs].
  - unfold main_init, check_inuse_factory_reset.
    destruct (match st with Some e => e =? ENOENT | None => false end);
      destruct env; cbn [glob state make_timer];
      first [ split; reflexivity | exists true; split; reflexivity ].
  - destruct (runs_script_step _ _ _ Hs (reachable_flags_appended _ Hr))
      as ((Hm & Hb & _) & d & Ho & Hi & Hst & Hc).
    rewrite Ho, factory_reset_calls_app.
    destruct (state (glob m)) eqn:E, (state (glob m')) eqn:E'.
    + destruct IH as [IHc IHb]. rewrite IHc, (Hst eq_refl), (Hb eq_refl).
      split; [reflexivity | exact IHb].
    + destruct IH as [IHc IHb].
      destruct (Hc eq_refl eq_refl) as (flag & Hbuf & Hd).
      exists flag. rewrite IHc, Hd, Hbuf, IHb. destruct flag; split; reflexivity.
    + discriminate (Hm eq_refl).
    + destruct IH as (flag & IHc & IHb).
      destruct (Hi eq_refl) as [Hd Hbuf].
      exists flag. rewrite IHc, Hd, Hbuf. split; [reflexivity | exact IHb].
Qed.

Lemma script_runs_once_witness :
  let m := main_init false (Some ENOENT) Timer_ok in
  let es := [Loop_pass (Read_events [(PRESS, Some (mk_timespec 100 0))])
               (Some (mk_timespec 100 1000));
             Loop_pass (Read_events [(RELEASE, Some (mk_timespec 102 0))])
               (Some (mk_timespec 102 1000));
             Timer_signal 34; Timer_signal 34] in
  exists m' flag,
    run es m = Some m' /\
    factory_reset_calls (out (glob m')) = [factoryReset flag].
Proof.
  intros m es.
  assert (Hr : forall es' m1 m2, reachable m1 -> run es' m1 = Some m2 ->
                                 reachable m2).
  { induction es' as [| e rest IH]; intros m1 m2 H1; cbn.
    - now intros [= <-].
    - destruct (step e m1) as [m3 |] eqn:Hs; [| discriminate].
      apply IH. exact (reachable_step _ _ _ H1 Hs). }
  destruct (run es m) as [m' |] eqn:Hrun; [| discriminate].
  assert (H := script_runs_once m' (Hr es m m' (reachable_init _ _ _) Hrun)).
  assert (Hst : state (glob m') = PB_STATE_INUSE).
  { vm_compute in Hrun. injection Hrun as <-. reflexivity. }
  rewrite Hst in H. destruct H as (flag & Hc & _).
  exists m', flag. split; [reflexivity | exact Hc].
Defined.

(** ** The short press in mode INUSE *)

Lemma reachable_script (m : monitor) :
  reachable m ->
  (state (glob m) = PB_STATE_START ->
   factory_reset_calls (out (glob m)) = [] /\
   str_sys_call_check_factory_reset (glob m) = check_factory_reset_cmd) /\
  (state (glob m) = PB_STATE_INUSE ->
   exists flag,
     factory_reset_calls (out (glob m))
       = [(check_factory_reset_cmd ++ flag_string flag)%string] /\
     str_sys_call_check_factory_reset (glob m)
       = (check_factory_reset_cmd ++ flag_string flag)%string).
Proof.
  induction 1 as [fs st env | m m' e Hr [IHs IHi] Hs].
  - unfold main_init, check_inuse_factory_reset.
    destruct (match st with Some e => e =? ENOENT | None => false end);
      destruct env; cbn [glob state make_timer];
      (split; intros H; [| try discriminate H; now exists true]);
      first [ now split | discriminate H ].
  - destruct (runs_script_step _ _ _ Hs (reachable_flags_appended _ Hr))
      as ((Hm & Hb & _) & d & Ho & Hi & Hst & Hc).
    rewrite Ho, factory_reset_calls_app.
    destruct (state (glob m)) eqn:E.
    + destruct (IHs eq_refl) as [IHc IHb]. rewrite IHc. cbn [app]. split.
      * intros E'. rewrite (Hst E'), (Hb E'). now split.
      * intros E'. destruct (Hc eq_refl E') as (flag & Hbuf & Hd).
        exists flag. rewrite Hd, Hbuf, IHb. now destruct flag.
    + split; [intros E'; rewrite (Hm eq_refl) in E'; discriminate E' |].
      intros _. destruct (IHi eq_refl) as (flag & IHc & IHb).
      destruct (Hi eq_refl) as [Hd Hbuf].
      exists flag. rewrite IHc, Hd, Hbuf. now split.
Qed.

Lemma no_reboot_refl (g : pb) : no_reboot g g.
Proof. exists []. rewrite app_nil_r. now split. Qed.

Lemma no_reboot_trans (g1 g2 g3 : pb) :
  no_reboot g1 g2 -> no_reboot g2 g3 -> no_reboot g1 g3.
Proof.
  intros (d1 & Ho1 & H1) (d2 & Ho2 & H2). exists (d1 ++ d2).
  split; [now rewrite Ho2, Ho1, app_assoc |].
  rewrite commands_app, in_app_iff. tauto.
Qed.

Lemma no_reboot_timer_handler (sig : Z) (g : pb) :
  flags_appended g -> no_reboot g (timer_handler sig g).
Proof.
  intros (flags & Hf & _). destruct (state g) eqn:Hst.
  - rewrite (timer_handler_start sig g Hst). eexists.
    split; [reflexivity |]. rewrite Hf. cbn [commands In].
    intros [H | [H | []]]; discriminate H.
  - rewrite (timer_handler_inuse sig g Hst). apply no_reboot_refl.
Qed.

Lemma no_reboot_process_time (seconds : Z) (g : pb) :
  no_reboot g (process_time seconds g).
Proof.
  unfold process_time. destruct (state g); [apply no_reboot_refl |].
  band_cases seconds;
    first [ apply no_reboot_refl
          | eexists; split; [reflexivity |];
            cbn [commands In]; intros [Hc | []]; discriminate Hc ].
Qed.

Lemma no_reboot_process_end_time (seconds : Z) (g : pb) :
  flags_appended g -> no_reboot g (process_end_time seconds g).
Proof.
  intros Hfa. assert (Hfa' := Hfa). destruct Hfa' as (flags & Hf & _).
  unfold process_end_time.
  band_cases seconds; [| | | destruct (state g) eqn:Hst]; exec; eexists;
    (split; [reflexivity |]); cbn [commands In].
  - tauto.
  - intros [Hc | []]. discriminate Hc.
  - tauto.
  - rewrite Hf. intros [Hc | [Hc | []]]; discriminate Hc.
  - intros [Hc | []]. exact (reboot_overwritten g Hfa Hst Hc).
Qed.

Lemma no_reboot_step (e : event) (m m' : monitor) :
  step e m = Some m' -> flags_appended (glob m) ->
  no_reboot (glob m) (glob m').
Proof.
  intros Hs Hf.
  refine (proj2 (lift_step_flags no_reboot no_reboot_refl no_reboot_trans
                   _ _ _ _ _ _ e m m' Hs Hf)); intros.
  - eexists. split; [reflexivity | cbn; tauto].
  - eexists. split; [reflexivity | cbn; tauto].
  - eexists. split; [reflexivity |].
    cbn [commands In]. intros [Hc | []]. discriminate Hc.
  - now apply no_reboot_timer_handler.
  - apply no_reboot_process_time.
  - now apply no_reboot_process_end_time.
Qed.



(** ** The flags on the command line of the script *)

Lemma process_end_time_statements (seconds : Z) (g : pb) :
  seconds < 5 -> state g = PB_STATE_START ->
  process_end_time seconds g = statements process_end_time_start g.
Proof.
  intros Hlt Hst. unfold process_end_time.
  band_cases seconds; try lia. now rewrite Hst.
Qed.




(** ** The loop under a clock that does not go back *)

Lemma clocks_forward_app (lo : Z) (a b : list clock) :
  clocks_forward lo (a ++ b) <->
  clocks_forward lo a /\ clocks_forward (last_reading lo a) b.
Proof.
  revert lo. induction a as [| [t |] a IH]; intros lo; cbn.
  - tauto.
  - rewrite IH. tauto.
  - apply IH.
Qed.

Lemma last_reading_app (lo : Z) (a b : list clock) :
  last_reading lo (a ++ b) = last_reading (last_reading lo a) b.
Proof.
  revert lo. induction a as [| [t |] a IH]; intros lo; cbn; auto.
Qed.

Lemma last_reading_ge (lo : Z) (cs : list clock) :
  clocks_forward lo cs -> lo <= last_reading lo cs.
Proof.
  revert lo. induction cs as [| [t |] cs IH]; intros lo; cbn.
  - lia.
  - intros (_ & Hle & H). specialize (IH _ H). lia.
  - apply IH.
Qed.

Lemma start_before_mono (lo lo' : Z) (m : monitor) :
  start_before lo m -> lo <= lo' -> start_before lo' m.
Proof. intros [Hr Hs] Hle. split; [exact Hr |]. intros H. specialize (Hs H). lia. Qed.

Lemma clock_reading_zero : clock_reading timespec_zero.
Proof. concrete_clock. Qed.

(** With the start time not after [lo] and the clock read at [lo] or
    later, [test_time] answers a duration that converts. *)
Lemma test_time_forward (lo : Z) (m : monitor) (clk : clock) :
  start_before lo m -> clocks_forward lo [clk] ->
  let t := fst (test_time (timer_start m) clk (glob m)) in
  t = 0 \/ exists seconds, 0 < t /\ ulong_of_double t = Some seconds.
Proof.
  intros [Hr Hs] Hc. unfold test_time.
  destruct (start_is_set (timer_start m)) eqn:E; [| now left].
  destruct clk as [stop |]; [| now left].
  destruct Hc as (Hstop & Hle & _). cbn [fst].
  rewrite (timespec_diff_nanoseconds _ _ Hr Hstop).
  specialize (Hs eq_refl).
  assert (Hel : 0 <= elapsed (timer_start m) stop) by (unfold elapsed; lia).
  destruct (Z.eq_dec (elapsed (timer_start m) stop) 0) as [-> | Hne];
    [now left | right].
  eexists. split; [lia |].
  apply ulong_of_double_floor; [exact Hel | now apply elapsed_seconds_bound].
Qed.

Lemma handle_event_forward (lo : Z) (ev : input_event) (clk : clock)
    (m : monitor) :
  start_before lo m -> clocks_forward lo [clk] ->
  exists f m',
    handle_event ev clk m = Some (f, m') /\
    start_before (last_reading lo [clk]) m'.
Proof.
  intros Hm Hc.
  assert (Hle := last_reading_ge _ _ Hc).
  assert (Hkeep : start_before (last_reading lo [clk]) m)
    by exact (start_before_mono _ _ _ Hm Hle).
  assert (Hsame : forall g, start_before (last_reading lo [clk])
                              (mk_monitor g (timer_start m)))
    by (intros g; exact Hkeep).
  unfold handle_event.
  destruct (negb (ev_type ev =? EV_KEY)); [now eauto |].
  destruct (ev_code ev =? 256); [| now eauto].
  destruct (ev_value ev =? 1).
  { destruct clk as [now |]; [| now eauto].
    do 2 eexists. split; [reflexivity |].
    destruct Hc as (Hnow & _ & _). split; [exact Hnow |]. cbn. lia. }
  destruct (ev_value ev =? 0); [| now eauto].
  assert (Ht := test_time_forward lo m clk Hm Hc).
  destruct (test_time (timer_start m) clk (glob m)) as [t g1].
  cbn [fst] in Ht. destruct Ht as [-> | (seconds & Hpos & Hq)].
  - cbn. eauto.
  - destruct (Z.eqb_spec t 0) as [H0 | _]; [lia |]. cbn [negb].
    rewrite Hq. do 2 eexists. split; [reflexivity |].
    split; [exact clock_reading_zero | discriminate].
Qed.

Lemma for_events_forward (lo : Z) (evs : list (input_event * clock))
    (m : monitor) :
  start_before lo m -> clocks_forward lo (map snd evs) ->
  exists m',
    for_events evs m = Some m' /\
    start_before (last_reading lo (map snd evs)) m'.
Proof.
  revert lo m. induction evs as [| [ev clk] rest IH]; intros lo m Hm Hc.
  - exists m. split; [reflexivity | exact Hm].
  - change (map snd ((ev, clk) :: rest)) with ([clk] ++ map snd rest) in *.
    apply clocks_forward_app in Hc. destruct Hc as [Hc1 Hc2].
    destruct (handle_event_forward lo ev clk m Hm Hc1) as (f & m1 & He & H1).
    cbn [for_events]. rewrite He, last_reading_app. destruct f.
    + exact (IH _ _ H1 Hc2).
    + exists m1. split; [reflexivity |].
      exact (start_before_mono _ _ _ H1 (last_reading_ge _ _ Hc2)).
Qed.

Lemma sample_forward (lo : Z) (clk : clock) (m : monitor) :
  start_before lo m -> clocks_forward lo [clk] ->
  exists m',
    sample clk m = Some m' /\ start_before (last_reading lo [clk]) m'.
Proof.
  intros Hm Hc.
  assert (Hkeep : start_before (last_reading lo [clk]) m)
    by exact (start_before_mono _ _ _ Hm (last_reading_ge _ _ Hc)).
  assert (Ht := test_time_forward lo m clk Hm Hc).
  unfold sample.
  destruct (test_time (timer_start m) clk (glob m)) as [t g1].
  cbn [fst] in Ht. destruct Ht as [-> | (seconds & Hpos & Hq)].
  - cbn. eexists. split; [reflexivity | exact Hkeep].
  - destruct (Z.eqb_spec t 0) as [H0 | _]; [lia |]. cbn [negb].
    rewrite Hq. eexists. split; [reflexivity | exact Hkeep].
Qed.

Lemma step_forward (lo : Z) (e : event) (m : monitor) :
  start_before lo m -> clocks_forward lo (event_clocks e) ->
  exists m',
    step e m = Some m' /\ start_before (last_reading lo (event_clocks e)) m'.
Proof.
  intros Hm Hc. destruct e as [sig | [eintr | evs] clk]; cbn [event_clocks] in *.
  - eexists. split; [reflexivity | exact Hm].
  - unfold step, loop_body.
    apply (sample_forward lo clk); [| exact Hc]. now destruct eintr.
  - apply clocks_forward_app in Hc. destruct Hc as [Hc1 Hc2].
    destruct (for_events_forward lo evs m Hm Hc1) as (m1 & Hf & H1).
    unfold step, loop_body. rewrite Hf, last_reading_app.
    exact (sample_forward _ clk m1 H1 Hc2).
Qed.

Lemma run_forward (lo : Z) (es : list event) (m : monitor) :
  start_before lo m -> clocks_forward lo (flat_map event_clocks es) ->
  exists m', run es m = Some m'.
Proof.
  revert lo m. induction es as [| e rest IH]; intros lo m Hm Hc.
  - now exists m.
  - cbn [flat_map] in Hc. apply clocks_forward_app in Hc.
    destruct Hc as [Hc1 Hc2].
    destruct (step_forward lo e m Hm Hc1) as (m1 & Hs & H1).
    cbn [run]. rewrite Hs. exact (IH _ _ H1 Hc2).
Qed.

(** X13. As long as the clock does not go back, the loop never stops
    and never converts a duration that [unsigned long] cannot hold:
    when every clock reading is a value that [clock_gettime] stores and
    none is earlier than the one before it (failed readings, failed
    reads, events of any kind and timer signals may come as they like),
    every pass of the loop and every signal is carried out, from the
    start of the monitor and from any state whose start time is not
    later than the first reading. *)
Theorem loop_runs_on_forward_clock :
  (forall (es : list event) (m : monitor),
      clock_reading (timer_start m) ->
      clocks_forward (nanoseconds (timer_start m)) (flat_map event_clocks es) ->
      exists m', run es m = Some m') /\
  (forall (es : list event) (fs : bool) (stat_errno : option Z)
          (env : timer_env),
      clocks_forward 0 (flat_map event_clocks es) ->
      exists m', run es (main_init fs stat_errno env) = Some m').
Proof.
  split.
  - intros es m Hr Hc.
    apply (run_forward (nanoseconds (timer_start m))); [| exact Hc].
    split; [exact Hr | lia].
  - intros es fs st env Hc. apply (run_forward 0); [| exact Hc].
    assert (Hz : timer_start (main_init fs st env) = timespec_zero).
    { unfold main_init. destruct (check_inuse_factory_reset st _) as [ts g2].
      now destruct (make_timer env "Timer1" ts TIMER1_INTERVAL g2). }
    split; rewrite Hz; [exact clock_reading_zero | discriminate].
Qed.

Lemma loop_runs_on_forward_clock_witness :
  let es := [Loop_pass (Read_events [(PRESS, Some (mk_timespec 100 0))])
               (Some (mk_timespec 100 1000));
             Timer_signal 34;
             Loop_pass (Read_short true) None;
             Loop_pass (Read_events [(RELEASE, Some (mk_timespec 112 0))])
               (Some (mk_timespec 112 1000))] in
  clocks_forward 0 (flat_map event_clocks es) /\
  exists m', run es (main_init false (Some ENOENT) Timer_ok) = Some m'.
Proof.
  intros es.
  assert (Hc : clocks_forward 0 (flat_map event_clocks es)).
  { cbn. repeat split; try concrete_clock; try lia; try discriminate. }
  split; [exact Hc |].
  exact (proj2 loop_runs_on_forward_clock es false (Some ENOENT) Timer_ok Hc).
Defined.

(** ** Presses and the end of the grace period *)



(** X15. A press is dispatched at most once. After a release that was
    dispatched the start time is cleared, so that a second release
    without a press in between is reported as invalid and dispatches
    nothing, whatever the clock reads. *)
Theorem second_release_invalid (m : monitor) (stop : timespec) (clk : clock) :
  start_is_set (timer_start m) = true ->
  clock_reading (timer_start m) -> clock_reading stop ->
  0 < elapsed (timer_start m) stop ->
  exists m1,
    handle_event RELEASE (Some stop) m = Some (Next, m1) /\
    (exists a, release_dispatches a m m1) /\
    for_events [(RELEASE, Some stop); (RELEASE, clk)] m =
      Some (mk_monitor (printf ("Invalid Time" ++ nl) [] (glob m1))
                       timespec_zero) /\
    (forall a,
        ~ release_dispatches a m1
            (mk_monitor (printf ("Invalid Time" ++ nl) [] (glob m1))
                        timespec_zero)).
Proof.
  intros Hset Hstart Hstop Hel.
  destruct (release_open_dispatches m stop Hset Hstart Hstop Hel)
    as (m1 & a & He & Ha & _).
  exists m1. split; [exact He |]. split; [now exists a |].
  assert (Hz : timer_start m1 = timespec_zero).
  { destruct Ha as (_ & _ & _ & Hz). exact Hz. }
  assert (Hc : start_is_set (timer_start m1) = false) by now rewrite Hz.
  split.
  - cbn [for_events]. rewrite He. cbv beta iota.
    rewrite (release_closed m1 clk Hc), Hz. reflexivity.
  - eapply (not_dispatched _ _ []). cbn. now rewrite app_nil_r.
Qed.

Lemma second_release_invalid_witness :
  let m := mk_monitor (glob (main_init true None Timer_ok))
                      (mk_timespec 100 0) in
  0 < elapsed (timer_start m) (mk_timespec 103 0) /\
  exists m1,
    handle_event RELEASE (Some (mk_timespec 103 0)) m = Some (Next, m1) /\
    for_events [(RELEASE, Some (mk_timespec 103 0));
                (RELEASE, Some (mk_timespec 104 0))] m =
      Some (mk_monitor (printf ("Invalid Time" ++ nl) [] (glob m1))
                       timespec_zero).
Proof.
  intros m.
  assert (Hel : 0 < elapsed (timer_start m) (mk_timespec 103 0))
    by reflexivity.
  split; [exact Hel |].
  assert (Hs : clock_reading (timer_start m)) by concrete_clock.
  assert (Ht : clock_reading (mk_timespec 103 0)) by concrete_clock.
  destruct (second_release_invalid m (mk_timespec 103 0)
              (Some (mk_timespec 104 0)) eq_refl Hs Ht Hel)
    as (m1 & He & _ & Hf & _).
  exists m1. split; [exact He | exact Hf].
Defined.

(** ** The bands of the dispatcher *)

(** X19. [process_end_time] selects its branch by the whole seconds,
    every band closed at its lower end. From 15 s it only prints the
    message of the cancelled press; from 10 s it runs the shutdown;
    from 5 s it creates the marker file and runs no command; below 5 s
    it runs, in mode START, the factory-reset script with one more flag
    1 and sets the mode to INUSE and, in mode INUSE, the command that
    [str_sys_call_reboot] holds. Apart from that the mode, the buffer
    and the marker file are left alone. On a release [main] hands it
    the floor of the elapsed time in seconds, so that the bands begin
    at exactly 5, 10 and 15 seconds of elapsed time. *)
Theorem dispatcher_bands :
  (forall (seconds : Z) (g : pb),
      let g' := process_end_time seconds g in
      let done := new_effects g g' in
      (15 <= seconds ->
       done = [Printf ("Long Push-Button Press (15+sec) - cancelled" ++ nl) []] /\
       undispatched_but_for_commands g g') /\
      (10 <= seconds < 15 ->
       done = [Printf ("Long Push-Button Press (10+sec) - shutdown" ++ nl) [];
               System "shutdown -h now"] /\
       undispatched_but_for_commands g g') /\
      (5 <= seconds < 10 ->
       done = [Printf ("Long Push-Button Press (5+sec) - Enter factory reset on next reboot"
                       ++ nl) [];
               Fopen_w "/opt/monitors/fc-set"] /\
       state g' = state g /\ fc_set g' = true /\
       str_sys_call_check_factory_reset g' = str_sys_call_check_factory_reset g) /\
      (seconds < 5 -> state g = PB_STATE_START ->
       done = [Printf ("Factory Reset" ++ nl) [];
               System (str_sys_call_check_factory_reset g ++ "1")%string;
               System "./set_led.sh 3"] /\
       state g' = PB_STATE_INUSE /\ fc_set g' = fc_set g /\
       str_sys_call_check_factory_reset g' =
         (str_sys_call_check_factory_reset g ++ "1")%string) /\
      (seconds < 5 -> state g = PB_STATE_INUSE ->
       done = [Printf ("Short Push-ButtonPress (less 5sec ) - reboot" ++ nl) [];
               System (str_sys_call_reboot g)] /\
       undispatched_but_for_commands g g')) /\
  (forall (m : monitor) (stop : timespec),
      start_is_set (timer_start m) = true ->
      clock_reading (timer_start m) -> clock_reading stop ->
      0 < elapsed (timer_start m) stop ->
      let seconds := elapsed (timer_start m) stop / 1000000000 in
      handle_event RELEASE (Some stop) m =
        Some (Next,
              mk_monitor
                (system "./set_led.sh 3" (process_end_time seconds (glob m)))
                timespec_zero) /\
      (seconds < 5 <-> elapsed (timer_start m) stop < 5000000000) /\
      (seconds < 10 <-> elapsed (timer_start m) stop < 10000000000) /\
      (seconds < 15 <-> elapsed (timer_start m) stop < 15000000000)).
Proof.
  split.
  - intros seconds g g' done. subst done g'.
    split; [| split; [| split; [| split]]].
    + intros H.
      destruct (process_end_time_cancel seconds g H) as (Ho & Hs & Hf & Hb).
      split; [now apply new_effects_app | now repeat split].
    + intros H.
      destruct (process_end_time_shutdown seconds g H) as (Ho & Hs & Hf & Hb).
      split; [now apply new_effects_app | now repeat split].
    + intros H.
      destruct (process_end_time_fc_set seconds g H) as (Ho & Hs & Hf & Hb).
      split; [now apply new_effects_app | now repeat split].
    + intros H Hst.
      destruct (process_end_time_factory_reset seconds g H Hst)
        as (Ho & Hs & Hf & Hb).
      split; [now apply new_effects_app | now repeat split].
    + intros H Hst.
      destruct (process_end_time_reboot seconds g H Hst) as (Ho & Hs & Hf & Hb).
      split; [now apply new_effects_app | now repeat split].
  - intros m stop Hset Hstart Hstop Hpos seconds. subst seconds.
    split; [now apply release_open |].
    split; [apply (whole_seconds_band _ 5); lia |].
    split; [apply (whole_seconds_band _ 10) | apply (whole_seconds_band _ 15)];
      lia.
Qed.

Lemma dispatcher_bands_witness :
  let g := mk_pb PB_STATE_START "/usr/local/bin/check-factory-reset.sh "
             false [] in
  10 <= 12 < 15 /\
  new_effects g (process_end_time 12 g) =
    [Printf ("Long Push-Button Press (10+sec) - shutdown" ++ nl) [];
     System "shutdown -h now"].
Proof.
  intros g.
  assert (H : 10 <= 12 < 15) by lia.
  split; [exact H |].
  exact (proj1 (proj1 (proj2 (proj1 dispatcher_bands 12 g)) H)).
Defined.

(** ** The LED *)

Ltac absurd_effects Hx :=
  first [ discriminate Hx
        | vm_compute in Hx; discriminate Hx
        | apply (f_equal (hd (Perror ""))) in Hx;
          vm_compute in Hx; discriminate Hx ].



Lemma prefix_append (p s t : string) :
  String.prefix p s = true -> String.prefix p (s ++ t) = true.
Proof.
  revert s. induction p as [| a p IH]; intros s.
  - now destruct s, t.
  - destruct s as [| b s]; cbn; [discriminate |].
    destruct (ascii_dec a b); [apply IH | discriminate].
Qed.

Lemma script_is_no_led_command (c : string) :
  String.prefix check_factory_reset_cmd c = true -> led_of_cmd c = None.
Proof.
  unfold check_factory_reset_cmd.
  destruct c as [| b c]; cbn [String.prefix]; [discriminate |].
  destruct (ascii_dec "/" b) as [<- | _]; [| discriminate].
  intros _. reflexivity.
Qed.

Lemma leds_in_use_refl (g : pb) : leds_in_use g g.
Proof.
  intros H. split; [exact H |]. exists []. now rewrite app_nil_r.
Qed.

Lemma leds_in_use_trans (g1 g2 g3 : pb) :
  leds_in_use g1 g2 -> leds_in_use g2 g3 -> leds_in_use g1 g3.
Proof.
  intros H12 H23 H1. destruct (H12 H1) as (H2 & d1 & Ho1 & Hd1).
  destruct (H23 H2) as (H3 & d2 & Ho2 & Hd2).
  split; [exact H3 |]. exists (d1 ++ d2).
  split; [now rewrite Ho2, Ho1, app_assoc |].
  now rewrite led_commands_app, forallb_app, Hd1, Hd2.
Qed.

Lemma leds_in_use_intro (g g' : pb) (d : list effect) :
  out g' = out g ++ d ->
  (String.prefix check_factory_reset_cmd (str_sys_call_check_factory_reset g)
     = true ->
   String.prefix check_factory_reset_cmd (str_sys_call_check_factory_reset g')
     = true /\
   forallb led_in_use (led_commands d) = true) ->
  leds_in_use g g'.
Proof.
  intros Ho H Hp. destruct (H Hp) as [Hp' Hd].
  split; [exact Hp' |]. now exists d.
Qed.

Lemma leds_in_use_timer_handler (sig : Z) (g : pb) :
  leds_in_use g (timer_handler sig g).
Proof.
  destruct (state g) eqn:Hst.
  - rewrite (timer_handler_start sig g Hst).
    eapply leds_in_use_intro; [reflexivity |]. intros Hp.
    cbn [str_sys_call_check_factory_reset].
    assert (Hp' := prefix_append _ _ "0" Hp). split; [exact Hp' |].
    cbn [led_commands]. rewrite led_of_cmd_led.
    now rewrite (script_is_no_led_command _ Hp').
  - rewrite (timer_handler_inuse sig g Hst). apply leds_in_use_refl.
Qed.

Lemma leds_in_use_process_time (seconds : Z) (g : pb) :
  leds_in_use g (process_time seconds g).
Proof.
  unfold process_time. destruct (state g); [apply leds_in_use_refl |].
  band_cases seconds;
    first [ apply leds_in_use_refl
          | eapply leds_in_use_intro; [reflexivity | now intros Hp] ].
Qed.

Lemma leds_in_use_process_end_time (seconds : Z) (g : pb) :
  flags_appended g -> leds_in_use g (process_end_time seconds g).
Proof.
  intros Hf. unfold process_end_time.
  band_cases seconds; [| | | destruct (state g) eqn:Hst]; exec;
    (eapply leds_in_use_intro; [reflexivity |]); intros Hp;
    cbn [str_sys_call_check_factory_reset]; try now split.
  - assert (Hp' := prefix_append _ _ "1" Hp). split; [exact Hp' |].
    cbn [led_commands]. rewrite (script_is_no_led_command _ Hp').
    now rewrite led_of_cmd_led.
  - split; [exact Hp |].
    cbn [led_commands]. now rewrite (reboot_no_led g Hf).
Qed.

Lemma leds_in_use_step (e : event) (m m' : monitor) :
  step e m = Some m' -> flags_appended (glob m) ->
  leds_in_use (glob m) (glob m').
Proof.
  intros Hs Hf.
  refine (proj2 (lift_step_flags leds_in_use leds_in_use_refl leds_in_use_trans
                   _ _ _ _ _ _ e m m' Hs Hf)); intros.
  - eapply leds_in_use_intro; [reflexivity | now intros Hp].
  - eapply leds_in_use_intro; [reflexivity | now intros Hp].
  - eapply leds_in_use_intro; [reflexivity |]. intros Hp. split; [exact Hp |].
    reflexivity.
  - apply leds_in_use_timer_handler.
  - apply leds_in_use_process_time.
  - now apply leds_in_use_process_end_time.
Qed.

(** X17. The monitor drives the LED to three states only. In every
    execution each LED command is RED, FLASH_GREEN or FLASH_RED: the
    states OFF and GREEN of the enumeration are never commanded, and
    the command line of the factory-reset script, however many flags
    it carries, is never taken for an LED command. *)
Theorem led_states_in_use (m : monitor) :
  reachable m ->
  forallb led_in_use (led_commands (out (glob m))) = true /\
  (led_after (out (glob m)) = Some LED_RED \/
   led_after (out (glob m)) = Some LED_FLASH_GREEN \/
   led_after (out (glob m)) = Some LED_FLASH_RED).
Proof.
  intros Hr.
  assert (H : String.prefix check_factory_reset_cmd
                (str_sys_call_check_factory_reset (glob m)) = true /\
              forallb led_in_use (led_commands (out (glob m))) = true /\
              led_commands (out (glob m)) <> []).
  { induction Hr as [fs st env | m m' e Hr (IHp & IHl & IHn) Hs].
    - unfold main_init, check_inuse_factory_reset.
      destruct (match st with Some e => e =? ENOENT | None => false end);
        destruct env; vm_compute; repeat split; discriminate.
    - destruct (leds_in_use_step _ _ _ Hs (reachable_flags_appended _ Hr) IHp)
        as (Hp & d & Ho & Hd).
      split; [exact Hp |].
      rewrite Ho, led_commands_app, forallb_app, IHl, Hd.
      split; [reflexivity |].
      intros Hnil. apply app_eq_nil in Hnil. now destruct Hnil. }
  destruct H as (_ & Hl & Hn). split; [exact Hl |].
  unfold led_after.
  destruct (led_commands (out (glob m))) as [| l ls] using rev_ind;
    [now elim Hn |].
  rewrite map_app. cbn [map]. rewrite last_last. rewrite forallb_app in Hl.
  apply andb_true_iff in Hl. destruct Hl as [_ Hl]. cbn in Hl.
  destruct l; try discriminate; auto.
Qed.

Lemma led_states_in_use_witness :
  let m := main_init false (Some ENOENT) Timer_ok in
  reachable m /\ led_after (out (glob m)) = Some LED_RED.
Proof.
  intros m. split; [apply reachable_init |].
  destruct (proj2 (led_states_in_use m (reachable_init _ _ _)))
    as [H | [H | H]]; [exact H | discriminate H | discriminate H].
Defined.

(** ** Initialisation *)

(** X18. In every execution the two commands of [pb_initialise] come
    first: the hard reset of the push button is disabled and the
    directory of the marker file is made before the first message, the
    check of the marker file, the timer and every later effect, so
    that no [stat], [remove] or [fopen] of the marker file precedes the
    command that makes its directory. *)
Theorem initialisation_comes_first :
  (forall g : pb,
      new_effects g (pb_initialise g) =
        [System str_sys_call_i2c_reset; System str_sys_call_opt_dir] /\
      undispatched_but_for_commands g (pb_initialise g)) /\
  (forall m : monitor,
      reachable m ->
      exists rest,
        out (glob m) =
          System str_sys_call_i2c_reset :: System str_sys_call_opt_dir :: rest).
Proof.
  split.
  - intros g. unfold pb_initialise. exec. rewrite new_effects_mk_pb.
    repeat split.
  - induction 1 as [fs st env | m m' e Hr (rest & IH) Hs].
    + unfold main_init, check_inuse_factory_reset.
      destruct (match st with Some e => e =? ENOENT | None => false end);
        destruct env; eexists; reflexivity.
    + destruct (evolves_step _ _ _ Hs) as (_ & _ & _ & d & Ho).
      exists (rest ++ d). rewrite Ho, IH. reflexivity.
Qed.

Lemma initialisation_comes_first_witness :
  let m := main_init true None Timer_ok in
  reachable m /\
  exists rest,
    out (glob m) =
      System str_sys_call_i2c_reset :: System str_sys_call_opt_dir :: rest.
Proof.
  intros m. split; [apply reachable_init |].
  exact (proj2 initialisation_comes_first m (reachable_init _ _ _)).
Defined.
